(** * srctools.filesys: a uniform read-only layer over file backends

    A shallow embedding of [srctools/filesys.py] and the properties of its
    path handling, lookups, traversals, equality and cache keys.

    Python [str] values are modelled as Rocq [string]s over 8-bit
    characters; case mapping acts on the ASCII letters.  The functions of
    [os.path] are those of [posixpath]; the host's directory tree and
    working directory are an explicit [Host] value. *)

From Stdlib Require Import String Ascii List ZArith Bool Arith Lia.
From Stdlib Require Import Permutation.
Import ListNotations.

Set Warnings "-register-all".
Local Open Scope list_scope.
Local Open Scope string_scope.

(* ================================================================== *)
(** ** Python strings *)

Module PyStr.

(** Pointwise character map, the shape of [str.replace] on one
    character, [str.upper], [str.lower] and [str.casefold]. *)
Fixpoint smap (f : ascii -> ascii) (s : string) : string :=
  match s with
  | EmptyString => EmptyString
  | String c r => String (f c) (smap f r)
  end.

Definition is_upper (c : ascii) : bool :=
  let n := nat_of_ascii c in (65 <=? n)%nat && (n <=? 90)%nat.

Definition is_lower (c : ascii) : bool :=
  let n := nat_of_ascii c in (97 <=? n)%nat && (n <=? 122)%nat.

Definition lower_char (c : ascii) : ascii :=
  if is_upper c then ascii_of_nat (nat_of_ascii c + 32) else c.

Definition upper_char (c : ascii) : ascii :=
  if is_lower c then ascii_of_nat (nat_of_ascii c - 32) else c.

(** [str.lower], [str.upper] and [str.casefold] as they act on ASCII
    text: the letters [A]-[Z] and [a]-[z] are mapped and every other
    character is kept.  Python also maps letters outside ASCII, and not
    one to one ([str.upper] sends U+0131 to [I]), so [upper] and [lower]
    are applied to ASCII names only, and names that differ in case are
    related by the equality of their [casefold]. *)
Definition lower : string -> string := smap lower_char.
Definition upper : string -> string := smap upper_char.
Definition casefold : string -> string := smap lower_char.

Definition replace_char (old new c : ascii) : ascii :=
  if Ascii.eqb c old then new else c.

(** [s.replace(old, new)] for one-character [old] and [new]. *)
Definition replace (old new : ascii) : string -> string :=
  smap (replace_char old new).

Definition backslash : ascii := "\"%char.
Definition slash : ascii := "/"%char.

(** [s.replace('\\', '/')] *)
Definition fix_slashes : string -> string := replace backslash slash.

(** [s.startswith(p)] *)
Fixpoint startswith (s p : string) {struct p} : bool :=
  match p with
  | EmptyString => true
  | String a p' =>
      match s with
      | EmptyString => false
      | String b s' => Ascii.eqb b a && startswith s' p'
      end
  end.

Fixpoint last_char (s : string) : option ascii :=
  match s with
  | EmptyString => None
  | String c EmptyString => Some c
  | String _ r => last_char r
  end.

(** [s.endswith(c)] for a one-character suffix. *)
Definition endswith_char (s : string) (c : ascii) : bool :=
  match last_char s with
  | Some d => Ascii.eqb d c
  | None => false
  end.

(** [s.split(sep)] for a one-character separator: never empty. *)
Fixpoint split (sep : ascii) (s : string) : list string :=
  match s with
  | EmptyString => [EmptyString]
  | String c r =>
      if Ascii.eqb c sep then EmptyString :: split sep r
      else match split sep r with
           | [] => [String c EmptyString]
           | h :: t => String c h :: t
           end
  end.

(** [sep.join(l)] *)
Definition join (sep : string) (l : list string) : string :=
  String.concat sep l.

Fixpoint repeat_char (c : ascii) (n : nat) : string :=
  match n with
  | O => EmptyString
  | S k => String c (repeat_char c k)
  end.

Definition is_empty (s : string) : bool :=
  match s with EmptyString => true | _ => false end.

(** The double quote character, for messages. *)
Definition dquote : string := String (ascii_of_nat 34) EmptyString.

End PyStr.

(* ================================================================== *)
(** ** [os.path] for POSIX hosts *)

Module posixpath.
Import PyStr.

Definition sep : string := "/".
Definition curdir : string := ".".
Definition pardir : string := "..".

Definition isabs (s : string) : bool := startswith s sep.

(** [join(a, b)]: one step of the loop of [posixpath.join]. *)
Definition join (a b : string) : string :=
  if startswith b sep then b
  else if is_empty a || endswith_char a slash then a ++ b
  else a ++ sep ++ b.

(** [join(a, *p)] *)
Definition join_all (a : string) (p : list string) : string :=
  fold_left join p a.

(** The number of leading slashes [normpath] keeps: 0, 1 or 2. *)
Definition initial_slashes (path : string) : nat :=
  if startswith path sep then
    if startswith path "//" && negb (startswith path "///") then 2 else 1
  else 0.

Definition is_nil {A} (l : list A) : bool :=
  match l with [] => true | _ => false end.

(** The body of the [for comp in comps] loop of [normpath]. *)
Definition norm_step (slashes : nat) (new_comps : list string)
           (comp : string) : list string :=
  if String.eqb comp "" || String.eqb comp curdir then new_comps
  else if negb (String.eqb comp pardir)
          || ((slashes =? 0)%nat && is_nil new_comps)
          || (negb (is_nil new_comps)
              && String.eqb (last new_comps "") pardir)
  then (new_comps ++ [comp])%list
  else removelast new_comps.

Definition normpath (path : string) : string :=
  if is_empty path then curdir
  else
    let slashes := initial_slashes path in
    let comps := split slash path in
    let new_comps := fold_left (norm_step slashes) comps [] in
    let path := PyStr.join sep new_comps in
    let path := repeat_char slash slashes ++ path in
    if is_empty path then curdir else path.

(** [abspath(path)], given the working directory. *)
Definition abspath (cwd path : string) : string :=
  if isabs path then normpath path else normpath (join cwd path).

Fixpoint commonprefix (a b : list string) : list string :=
  match a, b with
  | x :: a', y :: b' =>
      if String.eqb x y then x :: commonprefix a' b' else []
  | _, _ => []
  end.

Definition nonempty_comps (p : string) : list string :=
  filter (fun x => negb (is_empty x)) (split slash p).

(** [relpath(path, start)]; [None] stands for
    [ValueError("no path specified")]. *)
Definition relpath (cwd path start : string) : option string :=
  if is_empty path then None
  else
    let start_list := nonempty_comps (abspath cwd start) in
    let path_list := nonempty_comps (abspath cwd path) in
    let i := length (commonprefix start_list path_list) in
    let rel_list :=
      (repeat pardir (length start_list - i) ++ skipn i path_list)%list in
    match rel_list with
    | [] => Some curdir
    | a :: p => Some (join_all a p)
    end.

End posixpath.

(* ================================================================== *)
(** ** Exceptions, results and generators *)

Inductive exn : Type :=
| FileNotFoundError (msg : string)
| ValueError (msg : string)
| AttributeError
| UnicodeError
| NotADirectoryError (msg : string).

Inductive result (A : Type) : Type :=
| Ok (a : A)
| Raise (e : exn).
Arguments Ok {A} a.
Arguments Raise {A} e.

Definition bind {A B} (r : result A) (k : A -> result B) : result B :=
  match r with
  | Ok a => k a
  | Raise e => Raise e
  end.

Notation "x <- r ;; k" := (bind r (fun x => k))
  (at level 61, r at next level, right associativity).

(** A generator run to its end: the values it yields, in order, and the
    exception that ends the iteration, if one does. *)
Definition gen (A : Type) : Type := (list A * option exn)%type.

Definition yielded {A} (g : gen A) : list A := fst g.
Definition raised {A} (g : gen A) : option exn := snd g.

(** ** Insertion-ordered dictionaries with [str] keys *)

Module PyDict.
Section Dict.
Context {V : Type}.

Definition dict : Type := list (string * V).

(** [d[k]], [None] for [KeyError]. *)
Fixpoint get (d : dict) (k : string) : option V :=
  match d with
  | [] => None
  | (k', v) :: r => if String.eqb k' k then Some v else get r k
  end.

(** [d[k] = v]: an existing key keeps its place. *)
Fixpoint set (d : dict) (k : string) (v : V) : dict :=
  match d with
  | [] => [(k, v)]
  | (k', v') :: r =>
      if String.eqb k' k then (k', v) :: r else (k', v') :: set r k v
  end.

(** [{k: v for k, v in items}] *)
Definition of_items (items : list (string * V)) : dict :=
  fold_left (fun d kv => set d (fst kv) (snd kv)) items [].

Definition contains (d : dict) (k : string) : bool :=
  match get d k with Some _ => true | None => false end.

Definition keys (d : dict) : list string := map fst d.
Definition values (d : dict) : list V := map snd d.

(** [d1 == d2] *)
Definition eqb (veq : V -> V -> bool) (d1 d2 : dict) : bool :=
  (length d1 =? length d2)%nat
  && forallb (fun kv => match get d2 (fst kv) with
                        | Some v => veq (snd kv) v
                        | None => false
                        end) d1.
End Dict.
Arguments dict V : clear implicits.
End PyDict.

(** ** Collaborators: archives, streams and the host *)

Module zipfile.
(** The fields of [zipfile.ZipInfo] the module reads. *)
Record ZipInfo : Type := { filename : string; CRC : Z }.
End zipfile.

Module vpk.
(** Modelled from the spec: [srctools.vpk.FileInfo], an entry of the
    package archive with its filename, directory and checksum. *)
Record FileInfo : Type := { filename : string; dir : string; crc : Z }.
End vpk.

Module io.
Definition CR : ascii := ascii_of_nat 13.
Definition LF : ascii := ascii_of_nat 10.

(** What reading gives in universal newlines mode ([newline=None]). *)
Fixpoint universal_newlines (s : string) : string :=
  match s with
  | EmptyString => EmptyString
  | String c r =>
      if Ascii.eqb c CR then
        match r with
        | String d r' =>
            if Ascii.eqb d LF then String LF (universal_newlines r')
            else String LF (universal_newlines r)
        | EmptyString => String LF EmptyString
        end
      else String c (universal_newlines r)
  end.
End io.

(** The host's directory tree. *)
Inductive Node : Type :=
| RegFile (st_mtime_ns : Z)
| Dir (st_mtime_ns : Z) (entries : list (string * Node)).

(** What the module asks of its surroundings: the working directory, the
    directory tree under [/], and the codecs. *)
Record Host : Type := {
  getcwd : string;
  rootdir : Node;
  str_encode : string -> string -> option string;
  bytes_decode : string -> string -> option string
}.

Module os.
Import PyStr.

Fixpoint find_entry (name : string) (es : list (string * Node))
  : option Node :=
  match es with
  | [] => None
  | (n, x) :: r => if String.eqb n name then Some x else find_entry name r
  end.

Fixpoint descend (n : Node) (comps : list string) : option Node :=
  match comps with
  | [] => Some n
  | c :: r =>
      match n with
      | Dir _ es =>
          match find_entry c es with
          | Some x => descend x r
          | None => None
          end
      | RegFile _ => None
      end
  end.

(** The node a path names on the host, if any. *)
Definition node_at (h : Host) (path : string) : option Node :=
  descend (rootdir h)
          (posixpath.nonempty_comps (posixpath.abspath (getcwd h) path)).

Module path.
Definition isfile (h : Host) (p : string) : bool :=
  match node_at h p with Some (RegFile _) => true | _ => false end.
Definition normpath := posixpath.normpath.
Definition join := posixpath.join.
Definition abspath (h : Host) := posixpath.abspath (getcwd h).
Definition relpath (h : Host) := posixpath.relpath (getcwd h).
End path.

Definition st_mtime_ns (n : Node) : Z :=
  match n with RegFile t => t | Dir t _ => t end.

(** [os.stat] from a node along the components of [p]: a missing
    component raises [FileNotFoundError], a component looked for in a
    regular file raises [NotADirectoryError]. *)
Fixpoint stat_node (p : string) (n : Node) (comps : list string)
  : result Z :=
  match comps with
  | [] => Ok (st_mtime_ns n)
  | c :: r =>
      match n with
      | Dir _ es =>
          match find_entry c es with
          | Some x => stat_node p x r
          | None => Raise (FileNotFoundError p)
          end
      | RegFile _ => Raise (NotADirectoryError p)
      end
  end.

(** [os.stat(p).st_mtime_ns] *)
Definition stat_mtime_ns (h : Host) (p : string) : result Z :=
  stat_node p (rootdir h)
            (posixpath.nonempty_comps (posixpath.abspath (getcwd h) p)).

Definition is_reg (e : string * Node) : bool :=
  match snd e with RegFile _ => true | Dir _ _ => false end.

(** [os.walk] from a directory node, top down: one
    [(dirpath, dirnames, filenames)] triple per directory. *)
Fixpoint walk_node (dirpath : string) (n : Node)
  : list (string * list string * list string) :=
  match n with
  | RegFile _ => []
  | Dir _ es =>
      (dirpath,
       map fst (filter (fun e => negb (is_reg e)) es),
       map fst (filter is_reg es))
      :: (fix subdirs (l : list (string * Node)) :=
            match l with
            | [] => []
            | (name, x) :: r =>
                (walk_node (posixpath.join dirpath name) x
                   ++ subdirs r)%list
            end) es
  end.

Definition walk (h : Host) (top : string)
  : list (string * list string * list string) :=
  match node_at h top with
  | Some n => walk_node top n
  | None => []
  end.
End os.

(* ================================================================== *)
(** ** Files and file systems *)

Definition CACHE_KEY_INVALID : Z := (-1)%Z.

(** File contents of a virtual system: [str] or [bytes]. *)
Inductive Content : Type :=
| Text (s : string)
| Bytes (b : string).

(** The state each class keeps; the chain holds its members in order. *)
Inductive FileSystem : Type :=
| Raw (path : string) (constrain_path : bool)
| Zip (path : string) (_name_to_info : PyDict.dict zipfile.ZipInfo)
| VPK (path : string) (_name_to_file : PyDict.dict vpk.FileInfo)
| Virtual (path : string) (_mapping : PyDict.dict (string * Content))
          (bytes_encoding : string)
| Chain (path : string) (systems : list (FileSystem * string)).

Definition fs_path (fs : FileSystem) : string :=
  match fs with
  | Raw p _ | Zip p _ | VPK p _ | Virtual p _ _ | Chain p _ => p
  end.

(** [File(system, path, data)]; [_data] is private to the system. *)
Inductive File : Type :=
| MkFile (sys : FileSystem) (path : string) (_data : FileData)
with FileData : Type :=
| DataStr (s : string)
| DataZip (info : zipfile.ZipInfo)
| DataVPK (file : vpk.FileInfo)
| DataFile (inner : File).

Definition sys (f : File) : FileSystem :=
  match f with MkFile s _ _ => s end.
Definition path (f : File) : string :=
  match f with MkFile _ p _ => p end.
Definition _data (f : File) : FileData :=
  match f with MkFile _ _ d => d end.

(** An argument of type [Union[str, File]]. *)
Inductive NameOrFile : Type :=
| Name (name : string)
| AFile (file : File).

(* ================================================================== *)
(** ** [VirtualFileSystem] *)

Module VirtualFileSystem.
Import PyStr.

(** [_clean_path]: convert paths to one representation. *)
Definition _clean_path (p : NameOrFile) : string :=
  let p := match p with AFile f => path f | Name s => s end in
  casefold (fix_slashes (os.path.normpath p)).

Definition __init__ (mapping : list (string * Content))
           (encoding : string) : FileSystem :=
  Virtual "<virtual>"
          (PyDict.of_items
             (map (fun fd => (_clean_path (Name (fst fd)), (fst fd, snd fd)))
                  (PyDict.of_items mapping)))
          encoding.

Section Methods.
Variable self : FileSystem.
Variable _mapping : PyDict.dict (string * Content).
Variable bytes_encoding : string.

Definition not_found (name : NameOrFile) : exn :=
  FileNotFoundError
    (match name with Name s => s | AFile f => path f end).

(** [open_bin]: the bytes the returned buffer holds. *)
Definition open_bin (h : Host) (name : NameOrFile) : result string :=
  match PyDict.get _mapping (_clean_path name) with
  | None => Raise (not_found name)
  | Some (filename, Text s) =>
      match str_encode h bytes_encoding s with
      | Some b => Ok b
      | None => Raise UnicodeError
      end
  | Some (filename, Bytes b) => Ok b
  end.

(** [open_str]: the text a read of the returned stream gives. *)
Definition open_str (h : Host) (name : NameOrFile) (encoding : string)
  : result string :=
  match PyDict.get _mapping (_clean_path name) with
  | None => Raise (not_found name)
  | Some (filename, Bytes b) =>
      match bytes_decode h encoding b with
      | Some s => Ok (io.universal_newlines s)
      | None => Raise UnicodeError
      end
  | Some (filename, Text s) => Ok (io.universal_newlines s)
  end.

Definition walk_folder (folder : string) : gen File :=
  let folder := _clean_path (Name folder) in
  (map (fun fd => MkFile self (fst fd) (DataStr (fst fd)))
       (filter (fun fd => startswith (fst fd) folder)
               (PyDict.values _mapping)),
   None).

Definition _file_exists (name : string) : bool :=
  PyDict.contains _mapping (_clean_path (Name name)).

Definition _get_file (name : string) : result File :=
  match PyDict.get _mapping (_clean_path (Name name)) with
  | None => Raise (FileNotFoundError name)
  | Some (filename, data) => Ok (MkFile self filename (DataStr filename))
  end.
End Methods.
End VirtualFileSystem.

(** ** [RawFileSystem] *)

Module RawFileSystem.
Import PyStr.

Definition __init__ (h : Host) (p : string) (constrain_path : bool)
  : FileSystem :=
  Raw (os.path.abspath h p) constrain_path.

Section Methods.
Variable h : Host.
Variable self : FileSystem.
Variable self_path : string.
Variable constrain_path : bool.

Definition escaped (p : string) : exn :=
  ValueError ("Path " ++ dquote ++ p ++ dquote ++ " escaped "
              ++ dquote ++ self_path ++ dquote ++ "!").

(** [_resolve_path]: get the absolute path. *)
Definition _resolve_path (p : string) : result string :=
  let abs_path := os.path.abspath h (os.path.join self_path p) in
  if constrain_path && negb (startswith abs_path self_path)
  then Raise (escaped p)
  else Ok abs_path.

(** The loop body of [walk_folder] over the files [os.walk] found:
    a [relpath] failure ends the iteration. *)
Fixpoint yield_files (found : list string) : gen File :=
  match found with
  | [] => ([], None)
  | full :: r =>
      match os.path.relpath h full self_path with
      | None => ([], Some (ValueError "no path specified"))
      | Some rel =>
          let rel_path := fix_slashes rel in
          let rest := yield_files r in
          (MkFile self rel_path (DataStr rel_path) :: fst rest, snd rest)
      end
  end.

Definition walk_folder (folder : string) : gen File :=
  match _resolve_path folder with
  | Raise e => ([], Some e)
  | Ok p =>
      yield_files
        (flat_map (fun t => match t with
                            | (dirpath, _, filenames) =>
                                map (os.path.join dirpath) filenames
                            end)
                  (os.walk h p))
  end.

Definition _file_exists (name : string) : result bool :=
  p <- _resolve_path name ;; Ok (os.path.isfile h p).

Definition _get_file (name : string) : result File :=
  p <- _resolve_path name ;;
  if os.path.isfile h p then
    let name := fix_slashes name in
    Ok (MkFile self name (DataStr name))
  else Raise (FileNotFoundError name).

(** Our cache key is the last modification time; of what [os.stat]
    raises, only [FileNotFoundError] is caught. *)
Definition _get_cache_key (file : File) : result Z :=
  match (p <- _resolve_path (path file) ;; os.stat_mtime_ns h p) with
  | Raise (FileNotFoundError _) => Ok (-1)%Z
  | r => r
  end.
End Methods.
End RawFileSystem.

(** ** [ZipFileSystem] *)

Module ZipFileSystem.
Import PyStr.

(** The index built from [ZipFile.infolist()]; entries for directories
    have a trailing slash and are left out. *)
Definition __init__ (p : string) (infolist : list zipfile.ZipInfo)
  : FileSystem :=
  Zip p
      (PyDict.of_items
         (map (fun info => (casefold (zipfile.filename info), info))
              (filter (fun info =>
                         negb (endswith_char (zipfile.filename info) slash))
                      infolist))).

Section Methods.
Variable self : FileSystem.
Variable self_path : string.
Variable _name_to_info : PyDict.dict zipfile.ZipInfo.

Definition walk_folder (folder : string) : gen File :=
  let folder := casefold (fix_slashes folder) in
  (map (fun kv => MkFile self (zipfile.filename (snd kv))
                         (DataZip (snd kv)))
       (filter (fun kv => startswith (fst kv) folder) _name_to_info),
   None).

Definition _get_file (name : string) : result File :=
  let name := fix_slashes name in
  match PyDict.get _name_to_info (casefold name) with
  | None => Raise (FileNotFoundError (self_path ++ ":" ++ name))
  | Some info => Ok (MkFile self name (DataZip info))
  end.

Definition _file_exists (name : string) : bool :=
  PyDict.contains _name_to_info (casefold (fix_slashes name)).

(** Return the CRC of the entry. *)
Definition _get_cache_key (file : File) : result Z :=
  match _data file with
  | DataZip info => Ok (zipfile.CRC info)
  | _ => Raise AttributeError
  end.
End Methods.
End ZipFileSystem.

(** ** [VPKFileSystem] *)

Module VPKFileSystem.
Import PyStr.

Definition __init__ (p : string) (files : list vpk.FileInfo) : FileSystem :=
  VPK p
      (PyDict.of_items
         (map (fun file =>
                 (casefold (fix_slashes (vpk.filename file)), file))
              files)).

Section Methods.
Variable self : FileSystem.
Variable _name_to_file : PyDict.dict vpk.FileInfo.

Definition _file_exists (name : string) : bool :=
  PyDict.contains _name_to_file (fix_slashes (casefold name)).

Definition _get_file (name : string) : result File :=
  let key := fix_slashes (casefold name) in
  match PyDict.get _name_to_file key with
  | None => Raise (FileNotFoundError name)
  | Some file => Ok (MkFile self key (DataVPK file))
  end.

Definition walk_folder (folder : string) : gen File :=
  let folder := fix_slashes folder in
  (map (fun file => MkFile self (vpk.filename file) (DataVPK file))
       (filter (fun file => startswith (vpk.dir file) folder)
               (PyDict.values _name_to_file)),
   None).

Definition _get_cache_key (file : File) : result Z :=
  match _data file with
  | DataVPK f => Ok (vpk.crc f)
  | _ => Raise AttributeError
  end.
End Methods.
End VPKFileSystem.

(** ** [FileSystemChain] *)

Module FileSystemChain.
Import PyStr.

Definition __init__ (systems : list (FileSystem * string)) : FileSystem :=
  Chain "" systems.

(** [add_sys]: the chain after the call. *)
Definition add_sys (self : FileSystem) (s : FileSystem) (prefix : string)
           (priority : bool) : FileSystem :=
  match self with
  | Chain p systems =>
      if priority then Chain p ((s, prefix) :: systems)
      else Chain p (systems ++ [(s, prefix)])%list
  | _ => self
  end.

(** [get_system]: the system a chain's File came from. *)
Definition get_system (file : File) : result FileSystem :=
  match sys file with
  | Chain _ _ =>
      match _data file with
      | DataFile inner => Ok (sys inner)
      | _ => Raise AttributeError
      end
  | _ => Raise (ValueError "File is not from a FileSystemChain..")
  end.

Section Methods.
Variable h : Host.
(** The members' own [_get_file] and [walk_folder]. *)
Variable member_get_file : FileSystem -> string -> result File.
Variable member_walk_folder : FileSystem -> string -> gen File.
Variable self : FileSystem.

(** [_get_file]: search for a file on each filesystem in turn. *)
Fixpoint _get_file (systems : list (FileSystem * string)) (name : string)
  : result File :=
  match systems with
  | [] => Raise (FileNotFoundError name)
  | (s, prefix) :: rest =>
      let full_name := fix_slashes (os.path.join prefix name) in
      match member_get_file s full_name with
      | Raise (FileNotFoundError _) => _get_file rest name
      | Raise e => Raise e
      | Ok file_info => Ok (MkFile self full_name (DataFile file_info))
      end
  end.

(** The inner loop of [walk_folder_repeat] over one member's files. *)
Fixpoint reroot (prefix : string) (files : list File) (after : gen File)
  : gen File :=
  match files with
  | [] => after
  | file :: r =>
      match os.path.relpath h (path file) prefix with
      | None => ([], Some (ValueError "no path specified"))
      | Some rel =>
          let rest := reroot prefix r after in
          (MkFile self (fix_slashes rel) (DataFile file) :: fst rest,
           snd rest)
      end
  end.

(** [walk_folder_repeat]: walk folders, but allow repeating files. *)
Fixpoint walk_folder_repeat (systems : list (FileSystem * string))
         (folder : string) : gen File :=
  match systems with
  | [] => ([], None)
  | (s, prefix) :: rest =>
      let full_folder := fix_slashes (os.path.join prefix folder) in
      let inner := member_walk_folder s full_folder in
      reroot prefix (fst inner)
             (match snd inner with
              | Some e => ([], Some e)
              | None => walk_folder_repeat rest folder
              end)
  end.

(** The loop of [walk_folder]: [done] holds the folded paths seen. *)
Fixpoint skip_done (done : list string) (files : list File) : list File :=
  match files with
  | [] => []
  | file :: r =>
      let folded := casefold (path file) in
      if existsb (String.eqb folded) done then skip_done done r
      else file :: skip_done (folded :: done) r
  end.

(** [walk_folder]: walk folders, not repeating files. *)
Definition walk_folder (systems : list (FileSystem * string))
           (folder : string) : gen File :=
  let all := walk_folder_repeat systems folder in
  (skip_done [] (fst all), snd all).
End Methods.
End FileSystemChain.

(* ================================================================== *)
(** ** Method dispatch *)

(** [fs._get_file(name)], i.e. [fs[name]]. *)
Fixpoint _get_file (h : Host) (fs : FileSystem) (name : string)
  : result File :=
  match fs with
  | Raw p c => RawFileSystem._get_file h fs p c name
  | Zip p idx => ZipFileSystem._get_file fs p idx name
  | VPK _ idx => VPKFileSystem._get_file fs idx name
  | Virtual _ m _ => VirtualFileSystem._get_file fs m name
  | Chain _ systems => FileSystemChain._get_file (_get_file h) fs systems name
  end.

(** [fs.walk_folder(folder)] *)
Fixpoint walk_folder (h : Host) (fs : FileSystem) (folder : string)
  : gen File :=
  match fs with
  | Raw p c => RawFileSystem.walk_folder h fs p c folder
  | Zip _ idx => ZipFileSystem.walk_folder fs idx folder
  | VPK _ idx => VPKFileSystem.walk_folder fs idx folder
  | Virtual _ m _ => VirtualFileSystem.walk_folder fs m folder
  | Chain _ systems =>
      FileSystemChain.walk_folder h (walk_folder h) fs systems folder
  end.

(** [FileSystemChain.walk_folder_repeat]; the other classes have none. *)
Definition walk_folder_repeat (h : Host) (fs : FileSystem) (folder : string)
  : option (gen File) :=
  match fs with
  | Chain _ systems =>
      Some (FileSystemChain.walk_folder_repeat h (walk_folder h) fs systems
                                               folder)
  | _ => None
  end.

(** [name in fs]: the base class asks [_get_file], the indexed classes
    their index. *)
Definition _file_exists (h : Host) (fs : FileSystem) (name : string)
  : result bool :=
  match fs with
  | Raw p c => RawFileSystem._file_exists h p c name
  | Zip _ idx => Ok (ZipFileSystem._file_exists idx name)
  | VPK _ idx => Ok (VPKFileSystem._file_exists idx name)
  | Virtual _ m _ => Ok (VirtualFileSystem._file_exists m name)
  | Chain _ _ =>
      match _get_file h fs name with
      | Ok _ => Ok true
      | Raise (FileNotFoundError _) => Ok false
      | Raise e => Raise e
      end
  end.

(** [self._get_cache_key(file)] *)
Fixpoint _get_cache_key (h : Host) (self : FileSystem) (file : File)
  {struct file} : result Z :=
  match self with
  | Raw p c => RawFileSystem._get_cache_key h p c file
  | Zip _ _ => ZipFileSystem._get_cache_key file
  | VPK _ _ => VPKFileSystem._get_cache_key file
  | Virtual _ _ _ => Ok CACHE_KEY_INVALID
  | Chain _ _ =>
      match file with
      | MkFile (Chain _ _) _ d =>
          match d with
          | DataFile inner => _get_cache_key h (sys inner) inner
          | _ => Raise AttributeError
          end
      | MkFile _ _ _ =>
          Raise (ValueError "File is not from a FileSystemChain..")
      end
  end.

(** [file.cache_key()] *)
Definition cache_key (h : Host) (file : File) : result Z :=
  _get_cache_key h (sys file) file.

(** [fs.open_str(name, encoding)] where [fs] is a virtual system; the
    streams of the other classes read the host's files or archives. *)
Definition open_str (h : Host) (fs : FileSystem) (name : NameOrFile)
           (encoding : string) : option (result string) :=
  match fs with
  | Virtual _ m _ => Some (VirtualFileSystem.open_str m h name encoding)
  | _ => None
  end.

(** [fs.open_bin(name)] where [fs] is a virtual system. *)
Definition open_bin (h : Host) (fs : FileSystem) (name : NameOrFile)
  : option (result string) :=
  match fs with
  | Virtual _ m e => Some (VirtualFileSystem.open_bin m e h name)
  | _ => None
  end.

(** ** Equality *)

Definition content_eqb (a b : Content) : bool :=
  match a, b with
  | Text x, Text y => String.eqb x y
  | Bytes x, Bytes y => String.eqb x y
  | _, _ => false
  end.

(** Equality of the tuples [(filename, data)] a virtual system stores. *)
Definition entry_eqb (a b : string * Content) : bool :=
  String.eqb (fst a) (fst b) && content_eqb (snd a) (snd b).

(** [type(a) is type(b)] *)
Definition same_class (a b : FileSystem) : bool :=
  match a, b with
  | Raw _ _, Raw _ _ | Zip _ _, Zip _ _ | VPK _ _, VPK _ _
  | Virtual _ _ _, Virtual _ _ _ | Chain _ _, Chain _ _ => true
  | _, _ => false
  end.

(** [a == b]: [FileSystem.__eq__] compares the normalised paths, the
    virtual system and the chain override it; across classes both sides
    answer [NotImplemented] and distinct objects are unequal. *)
Fixpoint __eq__ (a b : FileSystem) : bool :=
  match a, b with
  | Raw p _, Raw q _ | Zip p _, Zip q _ | VPK p _, VPK q _ =>
      String.eqb (os.path.normpath p) (os.path.normpath q)
  | Virtual _ m e, Virtual _ m' e' =>
      String.eqb e e' && PyDict.eqb entry_eqb m m'
  | Chain _ l, Chain _ l' =>
      (fix list_eq (l l' : list (FileSystem * string)) : bool :=
         match l, l' with
         | [], [] => true
         | (x, p) :: r, (y, q) :: r' =>
             __eq__ x y && String.eqb p q && list_eq r r'
         | _, _ => false
         end) l l'
  | _, _ => false
  end.

(* ================================================================== *)
(** ** Predicates used in the statements *)

(** [f] sends exactly [c] to [c]. *)
Definition keeps (f : ascii -> ascii) (c : ascii) : Prop :=
  forall x, Ascii.eqb (f x) c = Ascii.eqb x c.

Fixpoint all_chars (P : ascii -> Prop) (s : string) : Prop :=
  match s with
  | EmptyString => True
  | String c r => P c /\ all_chars P r
  end.

(** A path component: no separator inside. *)
Definition nosep (s : string) : Prop :=
  all_chars (fun c => c <> PyStr.slash) s.

(** A component [normpath] keeps as a name. *)
Definition plain (s : string) : Prop :=
  nosep s /\ s <> "" /\ s <> "." /\ s <> "..".

(** The shape of the components [normpath] leaves: parent references
    first, and none at all below a rooted path, then plain names. *)
Definition normal_comps (slashes : nat) (l : list string) : Prop :=
  exists n rest,
    l = (repeat ".." n ++ rest)%list /\ Forall plain rest
    /\ (slashes <> 0 -> n = 0).

(** The name a chain asks a member with [prefix] for. *)
Definition full_name (prefix name : string) : string :=
  PyStr.fix_slashes (os.path.join prefix name).

(** A File was obtained from a system: by lookup or by traversal. *)
Definition obtained (h : Host) (fs : FileSystem) (f : File) : Prop :=
  (exists name, _get_file h fs name = Ok f)
  \/ (exists folder, In f (yielded (walk_folder h fs folder))).

(** The File's path is [x] up to case. *)
Definition folded_is (x : string) (f : File) : bool :=
  String.eqb (PyStr.casefold (path f)) (PyStr.casefold x).

(** Files of a member, each wrapped and re-rooted at the chain. *)
Definition reroot_files (h : Host) (self : FileSystem) (prefix : string)
           (files : list File) : list File :=
  flat_map (fun file =>
              match os.path.relpath h (path file) prefix with
              | Some rel =>
                  [MkFile self (PyStr.fix_slashes rel) (DataFile file)]
              | None => []
              end) files.

(** What one member contributes to [walk_folder_repeat]. *)
Definition member_files (h : Host) (self : FileSystem) (folder : string)
           (member : FileSystem * string) : list File :=
  reroot_files h self (snd member)
               (yielded (walk_folder h (fst member)
                                     (full_name (snd member) folder))).

(** Classes whose equality is the inherited [FileSystem.__eq__]. *)
Definition path_keyed (fs : FileSystem) : bool :=
  match fs with
  | Raw _ _ | Zip _ _ | VPK _ _ => true
  | _ => false
  end.

(** ** Example hosts and systems *)

Definition identity_codec (encoding s : string) : option string := Some s.

(** A POSIX host with [/data/a.txt] and, beside it, [/data2/x]. *)
Definition example_host : Host :=
  {| getcwd := "/home/user";
     rootdir := Dir 0 [("data", Dir 1 [("a.txt", RegFile 5)]);
                       ("data2", Dir 2 [("x", RegFile 7)]);
                       ("home", Dir 3 [("user", Dir 4 [])])];
     str_encode := identity_codec;
     bytes_decode := identity_codec |}.

Definition example_raw : FileSystem :=
  RawFileSystem.__init__ example_host "/data" true.

Definition example_maps : FileSystem :=
  VirtualFileSystem.__init__ [("maps/de_dust.bsp", Bytes "VBSP")] "utf8".

Definition example_zip_a : FileSystem :=
  ZipFileSystem.__init__ "a.zip"
    [ {| zipfile.filename := "x"; zipfile.CRC := 11 |};
      {| zipfile.filename := "only_a"; zipfile.CRC := 12 |} ].

Definition example_zip_b : FileSystem :=
  ZipFileSystem.__init__ "b.zip"
    [ {| zipfile.filename := "X"; zipfile.CRC := 21 |} ].

(** The text [hello\r\nworld]. *)
Definition hello_crlf : string :=
  "hello" ++ String io.CR (String io.LF "world").

(** The text [hello\nworld]. *)
Definition hello_lf : string := "hello" ++ String io.LF "world".

(** A chain of the two archives, which both hold [x] up to case. *)
Definition example_chain : FileSystem :=
  FileSystemChain.__init__ [(example_zip_a, ""); (example_zip_b, "")].

Definition example_x_of_a : File :=
  MkFile example_chain "x"
         (DataFile (MkFile example_zip_a "x"
                           (DataZip {| zipfile.filename := "x";
                                       zipfile.CRC := 11 |}))).

Definition example_x_of_b : File :=
  MkFile example_chain "X"
         (DataFile (MkFile example_zip_b "X"
                           (DataZip {| zipfile.filename := "X";
                                       zipfile.CRC := 21 |}))).

(** [p] is the root or lies below it, segment by segment. *)
Definition within_root (root p : string) : bool :=
  String.eqb p root
  || PyStr.startswith p (if PyStr.endswith_char root PyStr.slash
                         then root else root ++ "/").

(** A chain member answers [FileNotFoundError] for [x] under its
    prefix. *)
Definition misses (h : Host) (x : string) (member : FileSystem * string)
  : Prop :=
  exists msg, _get_file h (fst member) (full_name (snd member) x)
              = Raise (FileNotFoundError msg).

Definition example_vpk_entry : vpk.FileInfo :=
  {| vpk.filename := "Models\Props/A.mdl"; vpk.dir := "models/props";
     vpk.crc := 77 |}.

(** A package holding one entry, named with mixed case and separators. *)
Definition example_vpk : FileSystem :=
  VPKFileSystem.__init__ "pak01_dir.vpk" [example_vpk_entry].

Definition example_x_in_a : File :=
  MkFile example_zip_a "x"
         (DataZip {| zipfile.filename := "x"; zipfile.CRC := 11 |}).

(** ** Hashing *)

(** [type(self).__name__] *)
Definition class_name (fs : FileSystem) : string :=
  match fs with
  | Raw _ _ => "RawFileSystem"
  | Zip _ _ => "ZipFileSystem"
  | VPK _ _ => "VPKFileSystem"
  | Virtual _ _ _ => "VirtualFileSystem"
  | Chain _ _ => "FileSystemChain"
  end.

(** The text the inherited [FileSystem.__hash__] hands to [hash]; the
    virtual system and the chain hash other values. *)
Definition hashed_text (fs : FileSystem) : option string :=
  match fs with
  | Raw p _ | Zip p _ | VPK p _ =>
      Some (class_name fs ++ os.path.normpath p)
  | _ => None
  end.

(* ================================================================== *)
(** ** [srctools.bsp_transform]: the transformation context *)

Module bsp_transform.
Section Context.
(** Entities are dictionary keys by identity; an output carries, besides
    its [output] name, fields this module does not read here. *)
Variable Entity : Type.
Variable ent_eqb : Entity -> Entity -> bool.
Variable OutputRest : Type.

Record Output : Type := { output : string; rest : OutputRest }.

(** [out.output = v] *)
Definition set_output (out : Output) (v : string) : Output :=
  {| output := v; rest := rest out |}.

Definition key_eqb (a b : string * string) : bool :=
  String.eqb (fst a) (fst b) && String.eqb (snd a) (snd b).

(** Insertion-ordered dictionaries over any key with an equality. *)
Fixpoint kget {K V} (eqb : K -> K -> bool) (d : list (K * V)) (k : K)
  : option V :=
  match d with
  | [] => None
  | (k', v) :: r => if eqb k' k then Some v else kget eqb r k
  end.

Fixpoint kset {K V} (eqb : K -> K -> bool) (d : list (K * V)) (k : K)
         (v : V) : list (K * V) :=
  match d with
  | [] => [(k, v)]
  | (k', v') :: r =>
      if eqb k' k then (k', v) :: r else (k', v') :: kset eqb r k v
  end.

(** The two tables of a [Context]; the file system, map, pack list, BSP
    path and game it bundles are not touched by its methods. *)
Record Context : Type := {
  _io_remaps : list ((string * string) * list Output);
  _ent_code : list (Entity * string)
}.

(** The tables after [Context.__init__]. *)
Definition new_context : Context :=
  {| _io_remaps := []; _ent_code := [] |}.

(** [add_code]: register VScript code to be run on spawn for this
    entity. *)
Definition add_code (self : Context) (ent : Entity) (code : string)
  : Context :=
  {| _io_remaps := _io_remaps self;
     _ent_code :=
       match kget ent_eqb (_ent_code self) ent with
       | None => kset ent_eqb (_ent_code self) ent code
       | Some existing =>
           kset ent_eqb (_ent_code self) ent
                (existing ++ String io.LF code)
       end |}.

(** How a call of [add_io_remap] ends. *)
Inductive ended : Type :=
| Returned
| KeyError (key : string * string).

(** The loop of [add_io_remap] over the outputs: the remap table and
    the outputs as the call leaves them, and how it ends. *)
Fixpoint add_io_remap_loop
         (remaps : list ((string * string) * list Output))
         (name : string) (outputs : list Output)
  : list ((string * string) * list Output) * list Output * ended :=
  match outputs with
  | [] => (remaps, [], Returned)
  | out :: others =>
      let inp_name := PyStr.casefold (output out) in
      let out := set_output out "" in
      match kget key_eqb remaps (name, inp_name) with
      | None => (remaps, out :: others, KeyError (name, inp_name))
      | Some registered =>
          match add_io_remap_loop
                  (kset key_eqb remaps (name, inp_name)
                        (registered ++ [out])%list)
                  name others with
          | (remaps', others', e) => (remaps', out :: others', e)
          end
      end
  end.

(** [add_io_remap(name, *outputs)] *)
Definition add_io_remap (self : Context) (name : string)
           (outputs : list Output) : Context * list Output * ended :=
  match add_io_remap_loop (_io_remaps self) (PyStr.casefold name) outputs with
  | (remaps, outputs', e) =>
      ({| _io_remaps := remaps; _ent_code := _ent_code self |}, outputs', e)
  end.

End Context.
Arguments output {OutputRest} _.
Arguments rest {OutputRest} _.
Arguments set_output {OutputRest} _ _.
Arguments _io_remaps {Entity OutputRest} _.
Arguments _ent_code {Entity OutputRest} _.
Arguments new_context {Entity OutputRest}.
Arguments add_code {Entity} ent_eqb {OutputRest} _ _ _.
Arguments add_io_remap {Entity OutputRest} _ _ _.
Arguments add_io_remap_loop {OutputRest} _ _ _.
End bsp_transform.

(** A call on a [Context], and the context it leaves behind (also when
    it raises). *)
Inductive context_call (Entity OutputRest : Type) : Type :=
| CallAddCode (ent : Entity) (code : string)
| CallAddIoRemap (name : string)
                 (outputs : list (bsp_transform.Output OutputRest)).
Arguments CallAddCode {Entity OutputRest} _ _.
Arguments CallAddIoRemap {Entity OutputRest} _ _.

Definition after_call {Entity OutputRest : Type}
           (ent_eqb : Entity -> Entity -> bool)
           (ctx : bsp_transform.Context Entity OutputRest)
           (call : context_call Entity OutputRest)
  : bsp_transform.Context Entity OutputRest :=
  match call with
  | CallAddCode ent code => bsp_transform.add_code ent_eqb ctx ent code
  | CallAddIoRemap name outputs =>
      fst (fst (bsp_transform.add_io_remap ctx name outputs))
  end.

(** An example output, named in upper case. *)
Definition example_output : bsp_transform.Output nat :=
  {| bsp_transform.output := "OnTrigger"; bsp_transform.rest := 0 |}.

(** Two virtual systems that both hold [x], and the chain of the two. *)
Definition example_virtual_a : FileSystem :=
  VirtualFileSystem.__init__ [("x", Text "from A")] "utf8".

Definition example_virtual_b : FileSystem :=
  VirtualFileSystem.__init__ [("x", Text "from B")] "utf8".

Definition example_virtual_chain : FileSystem :=
  FileSystemChain.__init__ [(example_virtual_a, ""); (example_virtual_b, "")].


(* ================================================================== *)
(** * Properties *)

(** ** The path functions on examples *)

Example normpath_examples :
  posixpath.normpath "" = "."
  /\ posixpath.normpath "a/../b.txt" = "b.txt"
  /\ posixpath.normpath "//a/./b//c/" = "//a/b/c"
  /\ posixpath.normpath "///a/../../b" = "/b"
  /\ posixpath.normpath "../../a/.." = "../.."
  /\ posixpath.normpath "maps/" = "maps".
Proof. repeat split; reflexivity. Qed.

Example join_examples :
  posixpath.join "" "" = ""
  /\ posixpath.join "maps/" "de_dust.bsp" = "maps/de_dust.bsp"
  /\ posixpath.join "maps" "de_dust.bsp" = "maps/de_dust.bsp"
  /\ posixpath.join "/data" "/etc/passwd" = "/etc/passwd"
  /\ posixpath.abspath "/home/user" "/data/../data2/x" = "/data2/x".
Proof. repeat split; reflexivity. Qed.

Example relpath_examples :
  posixpath.relpath "/home/user" "maps/de_dust.bsp" "maps/"
  = Some "de_dust.bsp"
  /\ posixpath.relpath "/home/user" "a.txt" "" = Some "a.txt"
  /\ posixpath.relpath "/home/user" "a/b" "c" = Some "../a/b"
  /\ posixpath.relpath "/home/user" "" "c" = None.
Proof. repeat split; reflexivity. Qed.

Example universal_newlines_examples :
  io.universal_newlines hello_crlf = hello_lf
  /\ io.universal_newlines ("a" ++ String io.CR "b") = "a" ++ String io.LF "b".
Proof. split; reflexivity. Qed.

(** ** Strings *)

Section CharMaps.
Import PyStr.

Lemma smap_app f a b : smap f (a ++ b) = smap f a ++ smap f b.
Proof. induction a as [|c a IH]; simpl; [reflexivity | now rewrite IH]. Qed.

Lemma smap_comm f g s :
  (forall c, f (g c) = g (f c)) -> smap f (smap g s) = smap g (smap f s).
Proof.
  intros H; induction s as [|c s IH]; simpl; [reflexivity|].
  now rewrite H, IH.
Qed.

Lemma smap_ext f g s : (forall c, f c = g c) -> smap f s = smap g s.
Proof.
  intros H; induction s as [|c s IH]; simpl; [reflexivity|].
  now rewrite H, IH.
Qed.

Lemma smap_smap f g s : smap f (smap g s) = smap (fun c => f (g c)) s.
Proof. induction s as [|c s IH]; simpl; [reflexivity | now rewrite IH]. Qed.

Lemma eqb_smap_kept f p0 :
  all_chars (keeps f) p0 ->
  forall s, String.eqb (smap f s) p0 = String.eqb s p0.
Proof.
  induction p0 as [|a p0 IH]; intros Hk s.
  - destruct s; reflexivity.
  - destruct Hk as [Ha Hk]. destruct s as [|b s]; simpl; [reflexivity|].
    rewrite Ha, (IH Hk). reflexivity.
Qed.

Lemma startswith_smap_kept f p0 :
  all_chars (keeps f) p0 ->
  forall s, startswith (smap f s) p0 = startswith s p0.
Proof.
  induction p0 as [|a p0 IH]; intros Hk s; simpl; [reflexivity|].
  destruct Hk as [Ha Hk]. destruct s as [|b s]; simpl; [reflexivity|].
  rewrite Ha, (IH Hk). reflexivity.
Qed.

Lemma is_empty_smap f s : is_empty (smap f s) = is_empty s.
Proof. destruct s; reflexivity. Qed.

Lemma split_smap f sep s :
  keeps f sep -> split sep (smap f s) = map (smap f) (split sep s).
Proof.
  intros Hk; induction s as [|c s IH]; simpl; [reflexivity|].
  rewrite Hk, IH. destruct (Ascii.eqb c sep); [reflexivity|].
  destruct (split sep s); reflexivity.
Qed.

Lemma join_smap f sep l :
  PyStr.join (smap f sep) (map (smap f) l) = smap f (PyStr.join sep l).
Proof.
  unfold PyStr.join.
  induction l as [|x l IH]; simpl; [reflexivity|].
  destruct l as [|y l]; [reflexivity|].
  change (map (smap f) (y :: l)) with (smap f y :: map (smap f) l) in *.
  rewrite IH, !smap_app. reflexivity.
Qed.

Lemma repeat_char_smap f c n :
  f c = c -> smap f (repeat_char c n) = repeat_char c n.
Proof. intros H; induction n; simpl; [reflexivity | now rewrite H, IHn]. Qed.

Lemma keeps_fixes f c : keeps f c -> f c = c.
Proof.
  intros H. apply Ascii.eqb_eq. rewrite H. apply Ascii.eqb_refl.
Qed.

Lemma lower_keeps_slash : keeps lower_char slash.
Proof. intros [[] [] [] [] [] [] [] []]; reflexivity. Qed.

Lemma lower_keeps_dot : keeps lower_char "."%char.
Proof. intros [[] [] [] [] [] [] [] []]; reflexivity. Qed.

Lemma lower_lower_char c : lower_char (lower_char c) = lower_char c.
Proof. destruct c as [[] [] [] [] [] [] [] []]; reflexivity. Qed.

Lemma lower_fix_char c :
  lower_char (replace_char backslash slash c)
  = replace_char backslash slash (lower_char c).
Proof. destruct c as [[] [] [] [] [] [] [] []]; reflexivity. Qed.

Lemma casefold_fix_slashes s :
  casefold (fix_slashes s) = fix_slashes (casefold s).
Proof. apply smap_comm, lower_fix_char. Qed.

End CharMaps.

(** ** [normpath] and character maps *)

Section NormpathMaps.
Import PyStr posixpath.

Variable f : ascii -> ascii.
Hypothesis f_slash : keeps f slash.
Hypothesis f_dot : keeps f "."%char.

Lemma f_slash_fix : f "/"%char = "/"%char.
Proof. exact (keeps_fixes _ _ f_slash). Qed.

Lemma f_dot_fix : f "."%char = "."%char.
Proof. exact (keeps_fixes _ _ f_dot). Qed.

Lemma last_smap l : last (map (smap f) l) "" = smap f (last l "").
Proof.
  induction l as [|x l IH]; [reflexivity|].
  destruct l as [|y l]; [reflexivity|]. exact IH.
Qed.

Lemma removelast_smap l :
  removelast (map (smap f) l) = map (smap f) (removelast l).
Proof.
  induction l as [|x l IH]; [reflexivity|].
  destruct l as [|y l]; [reflexivity|].
  change (removelast (smap f x :: map (smap f) (y :: l))
          = smap f x :: map (smap f) (removelast (y :: l))).
  simpl removelast at 1. simpl map at 1.
  change (smap f x :: removelast (map (smap f) (y :: l))
          = smap f x :: map (smap f) (removelast (y :: l))).
  now rewrite IH.
Qed.

Lemma norm_step_smap k acc comp :
  norm_step k (map (smap f) acc) (smap f comp)
  = map (smap f) (norm_step k acc comp).
Proof.
  unfold norm_step, curdir, pardir.
  rewrite last_smap.
  rewrite !eqb_smap_kept by (simpl; auto).
  replace (is_nil (map (smap f) acc)) with (is_nil acc)
    by (destruct acc; reflexivity).
  destruct (String.eqb comp "" || String.eqb comp "."); [reflexivity|].
  match goal with |- (if ?c then _ else _) = _ => destruct c end.
  - now rewrite map_app.
  - apply removelast_smap.
Qed.

Lemma fold_norm_step_smap k comps acc :
  fold_left (norm_step k) (map (smap f) comps) (map (smap f) acc)
  = map (smap f) (fold_left (norm_step k) comps acc).
Proof.
  revert acc; induction comps as [|c comps IH]; intros acc; simpl;
    [reflexivity|].
  rewrite norm_step_smap. apply IH.
Qed.

Lemma initial_slashes_smap p :
  initial_slashes (smap f p) = initial_slashes p.
Proof.
  unfold initial_slashes, sep.
  rewrite !startswith_smap_kept by (simpl; auto). reflexivity.
Qed.

(** [normpath] only looks at slashes and dots. *)
Lemma normpath_smap p : normpath (smap f p) = smap f (normpath p).
Proof.
  destruct p as [|c p].
  - unfold normpath, curdir. simpl. now rewrite f_dot_fix.
  - set (q := String c p).
    assert (Hr : repeat_char slash (initial_slashes (smap f q))
                 ++ PyStr.join sep
                      (fold_left (norm_step (initial_slashes (smap f q)))
                                 (split slash (smap f q)) [])
                 = smap f (repeat_char slash (initial_slashes q)
                           ++ PyStr.join sep
                                (fold_left (norm_step (initial_slashes q))
                                           (split slash q) []))).
    { rewrite initial_slashes_smap, split_smap by exact f_slash.
      rewrite (fold_norm_step_smap _ _ []).
      rewrite smap_app, <- join_smap.
      rewrite repeat_char_smap by (apply keeps_fixes, f_slash).
      unfold sep. simpl smap. now rewrite f_slash_fix. }
    unfold normpath.
    change (is_empty (smap f q)) with false.
    change (is_empty q) with false. cbv iota zeta.
    rewrite Hr, is_empty_smap.
    destruct (is_empty _); [|reflexivity].
    unfold curdir. simpl. now rewrite f_dot_fix.
Qed.

Lemma join_path_smap a b :
  posixpath.join (smap f a) (smap f b) = smap f (posixpath.join a b).
Proof.
  unfold posixpath.join, sep.
  rewrite startswith_smap_kept by (simpl; auto).
  rewrite is_empty_smap.
  replace (endswith_char (smap f a) slash) with (endswith_char a slash).
  - destruct (startswith b "/"); [reflexivity|].
    destruct (is_empty a || endswith_char a slash).
    + now rewrite smap_app.
    + rewrite !smap_app. simpl. now rewrite f_slash_fix.
  - unfold endswith_char.
    assert (H : last_char (smap f a) = option_map f (last_char a)).
    { induction a as [|c a IH]; [reflexivity|].
      destruct a as [|d a]; [reflexivity|]. exact IH. }
    rewrite H. destruct (last_char a); simpl; [|reflexivity].
    now rewrite f_slash.
Qed.
End NormpathMaps.

(** ** [normpath] is idempotent *)

Section NormpathIdem.
Import PyStr posixpath.

Lemma split_nosep s : Forall nosep (split slash s).
Proof.
  induction s as [|c s IH]; simpl.
  - constructor; [exact I | constructor].
  - destruct (Ascii.eqb c slash) eqn:E.
    + constructor; [exact I | exact IH].
    + apply Ascii.eqb_neq in E.
      destruct (split slash s) as [|x l].
      * constructor; [split; [exact E | exact I] | constructor].
      * inversion IH as [|? ? Hx Hl]; subst.
        constructor; [split; assumption | assumption].
Qed.

Lemma split_app_sep a b :
  nosep a -> split slash (a ++ String slash b) = a :: split slash b.
Proof.
  induction a as [|c a IH]; intros Ha; simpl.
  - reflexivity.
  - destruct Ha as [Hc Ha]. apply Ascii.eqb_neq in Hc. rewrite Hc.
    now rewrite (IH Ha).
Qed.

Lemma split_one a : nosep a -> split slash a = [a].
Proof.
  induction a as [|c a IH]; intros Ha; simpl; [reflexivity|].
  destruct Ha as [Hc Ha]. apply Ascii.eqb_neq in Hc. rewrite Hc.
  now rewrite (IH Ha).
Qed.

Lemma split_join l :
  Forall nosep l -> l <> [] -> split slash (PyStr.join sep l) = l.
Proof.
  unfold PyStr.join, sep.
  induction l as [|x l IH]; intros Hl Hne; [congruence|].
  inversion Hl as [|? ? Hx Hl']; subst.
  destruct l as [|y l].
  - simpl. now apply split_one.
  - change (String.concat "/" (x :: y :: l))
      with (x ++ String slash (String.concat "/" (y :: l))).
    rewrite split_app_sep by assumption.
    rewrite IH by (auto; congruence). reflexivity.
Qed.

Lemma plain_step k acc c :
  plain c -> norm_step k acc c = (acc ++ [c])%list.
Proof.
  intros (_ & H1 & H2 & H3). unfold norm_step, curdir, pardir.
  apply String.eqb_neq in H1, H2, H3. now rewrite H1, H2, H3.
Qed.

Lemma fold_plain k rest acc :
  Forall plain rest ->
  fold_left (norm_step k) rest acc = (acc ++ rest)%list.
Proof.
  intros H; revert acc; induction H as [|c rest Hc _ IH]; intros acc; simpl.
  - now rewrite app_nil_r.
  - rewrite plain_step by assumption. rewrite IH, <- app_assoc. reflexivity.
Qed.

Lemma repeat_snoc (x : string) n : (repeat x n ++ [x])%list = repeat x (S n).
Proof. induction n; simpl; [reflexivity | now rewrite IHn]. Qed.

Lemma last_repeat (x : string) n : last (repeat x (S n)) "" = x.
Proof. induction n; [reflexivity | exact IHn]. Qed.

Lemma fold_pardirs n m :
  fold_left (norm_step 0) (repeat ".." n) (repeat ".." m)
  = repeat ".." (m + n).
Proof.
  revert m; induction n as [|n IH]; intros m; simpl.
  - now rewrite Nat.add_0_r.
  - replace (norm_step 0 (repeat ".." m) "..") with (repeat ".." (S m)).
    + rewrite IH. f_equal. lia.
    + unfold norm_step, curdir, pardir. simpl String.eqb. simpl orb.
      destruct m as [|m]; [reflexivity|].
      rewrite last_repeat. simpl. now rewrite repeat_snoc.
Qed.

(** The loop of [normpath] leaves normal components unchanged. *)
Lemma fold_normal k l :
  normal_comps k l -> fold_left (norm_step k) l [] = l.
Proof.
  intros (n & rest & -> & Hrest & Hk).
  rewrite fold_left_app.
  destruct k as [|k].
  - pose proof (fold_pardirs n 0) as H. simpl in H. rewrite H.
    now apply fold_plain.
  - rewrite Hk by discriminate. simpl. now apply fold_plain.
Qed.
Lemma is_nil_snoc (l : list string) x : is_nil (l ++ [x])%list = false.
Proof. destruct l; reflexivity. Qed.

Lemma norm_step_normal k acc c :
  nosep c -> normal_comps k acc -> normal_comps k (norm_step k acc c).
Proof.
  intros Hc (n & rest & -> & Hrest & Hk).
  unfold norm_step, curdir, pardir.
  destruct (String.eqb c "") eqn:E0; [now exists n, rest|].
  destruct (String.eqb c ".") eqn:E1; [now exists n, rest|].
  apply String.eqb_neq in E0, E1. simpl orb.
  destruct (String.eqb c "..") eqn:E2.
  - apply String.eqb_eq in E2. subst c. simpl negb. simpl orb.
    destruct rest as [|r0 rest0].
    + rewrite app_nil_r. destruct n as [|n].
      * simpl. destruct k as [|k]; simpl.
        -- exists 1, []. repeat split; [constructor | congruence].
        -- exists 0, []. repeat split; [constructor].
      * rewrite last_repeat. simpl is_nil. simpl negb. rewrite andb_false_r.
        replace (false || true && (".." =? "..")) with true by reflexivity.
        rewrite repeat_snoc.
        exists (S (S n)), []. rewrite app_nil_r.
        repeat split;
          [constructor | intros Hk'; specialize (Hk Hk'); discriminate].
    + destruct (@exists_last _ (r0 :: rest0)) as (rest' & x & Hx);
        [discriminate|]. rewrite Hx in *. clear Hx r0 rest0.
      apply Forall_app in Hrest. destruct Hrest as [Hrest' Hx].
      inversion Hx as [|? ? Hpx _]; subst.
      rewrite app_assoc, is_nil_snoc, last_last. simpl negb.
      rewrite andb_false_r. simpl orb.
      destruct Hpx as (_ & _ & _ & Hdd). apply String.eqb_neq in Hdd.
      rewrite Hdd. simpl. rewrite removelast_last.
      exists n, rest'. repeat split; assumption.
  - simpl. exists n, (rest ++ [c])%list. repeat split.
    + now rewrite app_assoc.
    + apply Forall_app. split; [assumption|].
      constructor; [|constructor]. apply String.eqb_neq in E2.
      repeat split; assumption.
    + assumption.
Qed.

Lemma fold_norm_step_normal k comps acc :
  Forall nosep comps -> normal_comps k acc ->
  normal_comps k (fold_left (norm_step k) comps acc).
Proof.
  intros H; revert acc; induction H as [|c comps Hc _ IH]; intros acc Ha;
    simpl; [assumption|].
  apply IH. now apply norm_step_normal.
Qed.

Lemma normal_comps_nil k : normal_comps k [].
Proof. exists 0, []. repeat split; constructor. Qed.

Lemma normal_comps_nosep k l : normal_comps k l -> Forall nosep l.
Proof.
  intros (n & rest & -> & Hrest & _). apply Forall_app. split.
  - apply Forall_forall. intros x Hx. apply repeat_spec in Hx. subst x.
    repeat split; discriminate.
  - eapply Forall_impl; [|exact Hrest]. now intros a (Ha & _).
Qed.
Lemma normal_comps_head k x l :
  normal_comps k (x :: l) ->
  exists a t, PyStr.join sep (x :: l) = String a t /\ a <> slash.
Proof.
  intros H.
  assert (Hx : nosep x /\ x <> "").
  { pose proof (normal_comps_nosep _ _ H) as Hn.
    inversion Hn as [|? ? Hnx _]; subst. split; [assumption|].
    destruct H as (n & rest & E & Hrest & _).
    destruct n as [|n]; simpl in E.
    - subst rest. inversion Hrest as [|? ? (_ & Hne & _) _]. assumption.
    - inversion E. discriminate. }
  destruct Hx as [Hn Hne]. destruct x as [|a x]; [congruence|].
  destruct Hn as [Ha _]. unfold PyStr.join. simpl.
  destruct l; eauto.
Qed.

Lemma initial_slashes_cases p :
  initial_slashes p = 0 \/ initial_slashes p = 1 \/ initial_slashes p = 2.
Proof.
  unfold initial_slashes.
  destruct (startswith p sep); [|now left].
  destruct (startswith p "//" && negb (startswith p "///")); auto.
Qed.

Lemma initial_slashes_lead k a t :
  k = 0 \/ k = 1 \/ k = 2 -> a <> slash ->
  initial_slashes (repeat_char slash k ++ String a t) = k.
Proof.
  intros Hk Ha. apply Ascii.eqb_neq in Ha. unfold slash in Ha.
  destruct Hk as [-> | [-> | ->]]; unfold initial_slashes, sep; simpl;
    rewrite Ha; reflexivity.
Qed.

Lemma split_lead k s :
  split slash (repeat_char slash k ++ s)
  = (repeat "" k ++ split slash s)%list.
Proof. induction k; simpl; [reflexivity | now rewrite IHk]. Qed.

Lemma fold_skip_empty k n l acc :
  fold_left (norm_step k) (repeat "" n ++ l) acc
  = fold_left (norm_step k) l acc.
Proof. induction n; simpl; [reflexivity | exact IHn]. Qed.

(** A normalised path is its own normal form. *)
Lemma normpath_of_normal k nc :
  k = 0 \/ k = 1 \/ k = 2 ->
  normal_comps k nc -> nc <> [] ->
  normpath (repeat_char slash k ++ PyStr.join sep nc)
  = repeat_char slash k ++ PyStr.join sep nc.
Proof.
  intros Hk Hnc Hne.
  pose proof (split_join _ (normal_comps_nosep _ _ Hnc) Hne) as Hs.
  pose proof (fold_normal _ _ Hnc) as Hf.
  destruct nc as [|x l]; [congruence|].
  destruct (normal_comps_head _ _ _ Hnc) as (a & t & Ej & Ha).
  rewrite Ej in Hs.
  assert (He : forall r, r = repeat_char slash k ++ String a t ->
                         is_empty r = false).
  { intros r ->. destruct Hk as [-> | [-> | ->]]; reflexivity. }
  unfold normpath. rewrite Ej.
  rewrite (He _ eq_refl), initial_slashes_lead, split_lead by assumption.
  rewrite fold_skip_empty, Hs, Hf, Ej.
  now rewrite (He _ eq_refl).
Qed.

Theorem normpath_idem p : normpath (normpath p) = normpath p.
Proof.
  destruct p as [|c p]; [reflexivity|].
  set (q := String c p).
  pose proof (initial_slashes_cases q) as Hk.
  pose proof (fold_norm_step_normal (initial_slashes q) _ []
                (split_nosep q) (normal_comps_nil _)) as Hnc.
  assert (Hq : normpath q =
               if is_empty (repeat_char slash (initial_slashes q)
                            ++ PyStr.join sep
                                 (fold_left (norm_step (initial_slashes q))
                                            (split slash q) []))
               then curdir
               else repeat_char slash (initial_slashes q)
                    ++ PyStr.join sep
                         (fold_left (norm_step (initial_slashes q))
                                    (split slash q) []))
    by reflexivity.
  rewrite Hq. clear Hq.
  set (nc := fold_left _ _ _) in *.
  destruct nc as [|x l] eqn:E.
  - destruct Hk as [-> | [-> | ->]]; reflexivity.
  - destruct (normal_comps_head _ _ _ Hnc) as (a & t & Ej & _).
    assert (Hr : is_empty (repeat_char slash (initial_slashes q)
                           ++ PyStr.join sep (x :: l)) = false).
    { rewrite Ej. destruct Hk as [-> | [-> | ->]]; reflexivity. }
    rewrite Hr. apply normpath_of_normal; [assumption.. | discriminate].
Qed.
End NormpathIdem.

(** ** Dictionaries *)

Section DictFacts.
Context {V : Type}.
Implicit Types (d : PyDict.dict V) (k : string) (v : V).

Lemma get_In d k v : PyDict.get d k = Some v -> In (k, v) d.
Proof.
  induction d as [|[k' v'] d IH]; simpl; [discriminate|].
  destruct (String.eqb k' k) eqn:E.
  - apply String.eqb_eq in E. intros [= ->]. subst. now left.
  - intros H. right. now apply IH.
Qed.

Lemma get_set_same d k v : PyDict.get (PyDict.set d k v) k = Some v.
Proof.
  induction d as [|[k' v'] d IH]; simpl.
  - now rewrite String.eqb_refl.
  - destruct (String.eqb k' k) eqn:E; simpl; rewrite E; [reflexivity|exact IH].
Qed.

Lemma get_set_other d k k' v :
  k <> k' -> PyDict.get (PyDict.set d k v) k' = PyDict.get d k'.
Proof.
  intros Hne. induction d as [|[k0 v0] d IH]; simpl.
  - apply String.eqb_neq in Hne. now rewrite Hne.
  - destruct (String.eqb k0 k) eqn:E; simpl.
    + apply String.eqb_eq in E. subst k0.
      apply String.eqb_neq in Hne. now rewrite Hne.
    + destruct (String.eqb k0 k'); [reflexivity | exact IH].
Qed.



Lemma fold_set_keys (items : list (string * V)) d k :
  In k (map fst (fold_left (fun d kv => PyDict.set d (fst kv) (snd kv))
                           items d)) ->
  In k (map fst items) \/ In k (map fst d).
Proof.
  revert d; induction items as [|[k0 v0] items IH]; intros d H; simpl in *.
  - now right.
  - destruct (IH _ H) as [H' | H']; [left; now right|].
    clear -H'. induction d as [|[k1 v1] d IHd]; simpl in *.
    + destruct H' as [<- | []]. left. now left.
    + destruct (String.eqb k1 k0); simpl in H'.
      * right. exact H'.
      * destruct H' as [<- | H']; [right; now left|].
        destruct (IHd H') as [? | ?]; [now left | right; now right].
Qed.

Lemma set_values_In d k v x :
  In x (PyDict.set d k v) -> x = (k, v) \/ In x d
                             \/ (exists v', In (k, v') d /\ x = (k, v)).
Proof.
  induction d as [|[k1 v1] d IH]; simpl.
  - intros [<- | []]. now left.
  - destruct (String.eqb k1 k) eqn:E; simpl.
    + apply String.eqb_eq in E. subst k1. intros [<- | H]; auto.
    + intros [<- | H]; auto. destruct (IH H) as [? | [? | (v' & ? & ?)]];
        eauto 6.
Qed.

(** The values of a built dictionary are values of its items. *)
Lemma of_items_In (items : list (string * V)) x :
  In x (PyDict.of_items items) -> In (snd x) (map snd items).
Proof.
  unfold PyDict.of_items.
  assert (G : forall d, In x (fold_left
                                (fun d kv => PyDict.set d (fst kv) (snd kv))
                                items d) ->
                        In (snd x) (map snd items) \/ In x d).
  { induction items as [|[k0 v0] items IH]; intros d H; simpl in *.
    - now right.
    - destruct (IH _ H) as [H' | H']; [left; now right|].
      apply set_values_In in H'.
      destruct H' as [-> | [H' | (v' & _ & ->)]]; auto. }
  intros H. destruct (G [] H) as [? | []]. assumption.
Qed.
End DictFacts.

(** ** Traversal protection of [RawFileSystem] *)

(** What the guard of [_resolve_path] checks: a constrained system hands
    out only paths that start with the characters of its root, and raises
    [ValueError] for the others. *)
Lemma resolve_path_guard h root p :
  let abs_path := os.path.abspath h (os.path.join root p) in
  RawFileSystem._resolve_path h root true p
  = if PyStr.startswith abs_path root then Ok abs_path
    else Raise (RawFileSystem.escaped root p).
Proof.
  unfold RawFileSystem._resolve_path. simpl.
  destruct (PyStr.startswith _ root); reflexivity.
Qed.

(** C1, on the code: a [RawFileSystem] rooted at [/data] with the
    traversal constraint enabled resolves [../data2/x] to [/data2/x],
    outside its root, and returns a File for it; it does reject
    [../etc/passwd].  The guard compares characters, not path segments. *)
Theorem C1_sibling_directory_not_rejected :
  example_raw = Raw "/data" true
  /\ RawFileSystem._resolve_path example_host "/data" true "../data2/x"
     = Ok "/data2/x"
  /\ within_root "/data" "/data2/x" = false
  /\ os.path.isfile example_host "/data2/x" = true
  /\ _get_file example_host example_raw "../data2/x"
     = Ok (MkFile example_raw "../data2/x" (DataStr "../data2/x"))
  /\ _get_file example_host example_raw "../etc/passwd"
     = Raise (RawFileSystem.escaped "/data" "../etc/passwd").
Proof. repeat split; vm_compute; reflexivity. Qed.

(** ** Case of names *)

(** C3, on the code: on a host whose directory tree distinguishes case,
    a [RawFileSystem] holding [a.txt] finds it under that name and under
    its lower-case form, and raises [FileNotFoundError] for the upper-case
    form: the class asks the host and folds nothing. *)
Theorem C3_raw_lookup_follows_host_case :
  _get_file example_host example_raw "a.txt"
  = Ok (MkFile example_raw "a.txt" (DataStr "a.txt"))
  /\ _get_file example_host example_raw (PyStr.lower "a.txt")
     = Ok (MkFile example_raw "a.txt" (DataStr "a.txt"))
  /\ _get_file example_host example_raw (PyStr.upper "a.txt")
     = Raise (FileNotFoundError "A.TXT").
Proof. repeat split; vm_compute; reflexivity. Qed.

(** ** Prefix scoping in a chain *)

(** C4, on the code: for a chain whose one member has prefix [maps/] and
    holds [maps/de_dust.bsp], both traversals present the file as
    [de_dust.bsp], and the File that [lookup] returns for [de_dust.bsp]
    carries the path [maps/de_dust.bsp], prefix included. *)
Theorem C4_lookup_path_keeps_prefix :
  let chain := FileSystemChain.__init__ [(example_maps, "maps/")] in
  option_map (fun g => map path (yielded g))
             (walk_folder_repeat example_host chain "")
  = Some ["de_dust.bsp"]
  /\ map path (yielded (walk_folder example_host chain ""))
     = ["de_dust.bsp"]
  /\ match _get_file example_host chain "de_dust.bsp" with
     | Ok f => path f = "maps/de_dust.bsp"
               /\ FileSystemChain.get_system f = Ok example_maps
     | Raise _ => False
     end.
Proof. repeat split; vm_compute; reflexivity. Qed.

(** ** Listing a virtual system *)

(** C5, on the code: [walk_folder('')] of a virtual system holding
    [a.txt] yields nothing, since the folder is cleaned to [.] and no
    stored name starts with it; and a folder is compared, case-folded,
    with the names as stored, so [walk_folder('maps')] does not yield
    [Maps/A.bsp]. *)
Theorem C5_virtual_listing_misses_entries :
  VirtualFileSystem._clean_path (Name "") = "."
  /\ walk_folder example_host
                 (VirtualFileSystem.__init__ [("a.txt", Text "x")] "utf8") ""
     = ([], None)
  /\ walk_folder example_host
                 (VirtualFileSystem.__init__ [("Maps/A.bsp", Text "x")] "utf8")
                 "maps"
     = ([], None)
  /\ map path (yielded (walk_folder example_host
                 (VirtualFileSystem.__init__ [("maps/a.bsp", Text "x")] "utf8")
                 "MAPS"))
     = ["maps/a.bsp"].
Proof. repeat split; vm_compute; reflexivity. Qed.

(** ** Keys of the indexed systems *)

Section IndexKeys.
Import PyStr.

(** [_clean_path] sees neither case nor the segments [normpath] drops. *)
Lemma clean_path_casefold p :
  VirtualFileSystem._clean_path (Name p)
  = fix_slashes (os.path.normpath (casefold p)).
Proof.
  unfold VirtualFileSystem._clean_path, os.path.normpath.
  rewrite casefold_fix_slashes. f_equal. symmetry.
  apply normpath_smap; [exact lower_keeps_slash | exact lower_keeps_dot].
Qed.

Lemma clean_path_case p q :
  casefold q = casefold p ->
  VirtualFileSystem._clean_path (Name q)
  = VirtualFileSystem._clean_path (Name p).
Proof. intros H. now rewrite !clean_path_casefold, H. Qed.


(** The indexed classes look names up by a key that ignores case. *)
Lemma indexed_lookup_ignores_case h fs p q :
  (match fs with Zip _ _ | VPK _ _ | Virtual _ _ _ => True | _ => False end) ->
  casefold q = casefold p ->
  _file_exists h fs q = _file_exists h fs p
  /\ forall f, _get_file h fs p = Ok f ->
               exists g, _get_file h fs q = Ok g /\ _data g = _data f.
Proof.
  intros Hfs Hc. destruct fs as [| zp idx | vp idx | vp m e |]; try easy; simpl.
  - unfold ZipFileSystem._file_exists, ZipFileSystem._get_file.
    rewrite !casefold_fix_slashes, Hc. split; [reflexivity|].
    intros f. destruct (PyDict.get idx _); [|discriminate].
    intros [= <-]. eauto.
  - unfold VPKFileSystem._file_exists, VPKFileSystem._get_file.
    rewrite Hc. split; [reflexivity|].
    intros f. destruct (PyDict.get idx _); [|discriminate].
    intros [= <-]. eauto.
  - unfold VirtualFileSystem._file_exists, VirtualFileSystem._get_file.
    rewrite (clean_path_case _ _ Hc). split; [reflexivity|].
    intros f. destruct (PyDict.get m _) as [[fn d]|]; [|discriminate].
    intros [= <-]. eauto.
Qed.
End IndexKeys.

(** ** Cache keys *)

Lemma zip_walk_In idx self folder f :
  In f (yielded (ZipFileSystem.walk_folder self idx folder)) ->
  exists key info, In (key, info) idx /\ f = MkFile self (zipfile.filename info)
                                                    (DataZip info).
Proof.
  unfold ZipFileSystem.walk_folder, yielded. simpl.
  intros H. apply in_map_iff in H. destruct H as ([key info] & <- & H).
  apply filter_In in H. destruct H as [H _]. now exists key, info.
Qed.

(** C8: a File obtained from a [ZipFileSystem], by lookup or by
    traversal, carries an entry of the index and its cache key is that
    entry's CRC; the cache key of a File obtained from a
    [VirtualFileSystem] is the invalid key [-1]. *)
Theorem C8_cache_key_zip_crc_virtual_invalid h fs f :
  obtained h fs f ->
  (forall p idx, fs = Zip p idx ->
     exists key info, In (key, info) idx /\ _data f = DataZip info
                      /\ cache_key h f = Ok (zipfile.CRC info))
  /\ (forall p m e, fs = Virtual p m e ->
        cache_key h f = Ok CACHE_KEY_INVALID /\ CACHE_KEY_INVALID = (-1)%Z).
Proof.
  intros Hob. split.
  - intros p idx ->. destruct Hob as [(name & H) | (folder & H)].
    + simpl in H. unfold ZipFileSystem._get_file in H.
      destruct (PyDict.get idx _) as [info|] eqn:E; [|discriminate].
      injection H as <-. exists (PyStr.casefold (PyStr.fix_slashes name)), info.
      split; [now apply get_In | split; reflexivity].
    + simpl in H. apply zip_walk_In in H.
      destruct H as (key & info & Hin & ->).
      exists key, info. split; [assumption | split; reflexivity].
  - intros p m e ->. split; [|reflexivity].
    destruct Hob as [(name & H) | (folder & H)].
    + simpl in H. unfold VirtualFileSystem._get_file in H.
      destruct (PyDict.get m _) as [[fn d]|]; [|discriminate].
      injection H as <-. reflexivity.
    + simpl in H. unfold VirtualFileSystem.walk_folder, yielded in H.
      simpl in H. apply in_map_iff in H. destruct H as (x & <- & _).
      reflexivity.
Qed.

(** [X] is found in the first example archive, with the CRC of its
    entry [x]. *)
Lemma C8_witness :
  obtained example_host example_zip_a
           (MkFile example_zip_a "X"
                   (DataZip {| zipfile.filename := "x"; zipfile.CRC := 11 |}))
  /\ cache_key example_host
               (MkFile example_zip_a "X"
                       (DataZip {| zipfile.filename := "x";
                                   zipfile.CRC := 11 |}))
     = Ok 11%Z.
Proof.
  assert (Hob : obtained example_host example_zip_a
                  (MkFile example_zip_a "X"
                     (DataZip {| zipfile.filename := "x";
                                 zipfile.CRC := 11 |})))
    by (left; exists "X"; reflexivity).
  split; [exact Hob|].
  destruct (proj1 (C8_cache_key_zip_crc_virtual_invalid _ _ _ Hob)
                  _ _ eq_refl) as (key & info & _ & Hd & Hk).
  injection Hd as <-. exact Hk.
Defined.

(** ** Reading from a virtual system *)



(** ** Lookup in a chain *)

Section ChainLookup.
Variable h : Host.
Variable cp : string.
Variable x : string.

Lemma chain_get_file_skips self pre rest :
  Forall (misses h x) pre ->
  FileSystemChain._get_file (_get_file h) self (pre ++ rest) x
  = FileSystemChain._get_file (_get_file h) self rest x.
Proof.
  induction 1 as [|[s prefix] pre (msg & Hs) _ IH]; [reflexivity|].
  simpl. unfold full_name in Hs. simpl in Hs. now rewrite Hs.
Qed.

(** C2, as the code has it: when every member before the first one that
    resolves [x] answers [FileNotFoundError], the chain returns the File
    wrapping that member's File, whatever members follow; when every
    member answers [FileNotFoundError], so does the chain; and any other
    exception of the first member that does not answer
    [FileNotFoundError] leaves the chain unchanged. *)
Theorem C2_chain_lookup_first_match pre :
  Forall (misses h x) pre ->
  (forall s prefix post inner,
      _get_file h s (full_name prefix x) = Ok inner ->
      _get_file h (Chain cp (pre ++ (s, prefix) :: post)) x
      = Ok (MkFile (Chain cp (pre ++ (s, prefix) :: post))
                   (full_name prefix x) (DataFile inner)))
  /\ _get_file h (Chain cp pre) x = Raise (FileNotFoundError x)
  /\ (forall s prefix post e,
         _get_file h s (full_name prefix x) = Raise e ->
         (forall msg, e <> FileNotFoundError msg) ->
         _get_file h (Chain cp (pre ++ (s, prefix) :: post)) x = Raise e).
Proof.
  intros Hpre. repeat split.
  - intros s prefix post inner Hs. simpl.
    rewrite chain_get_file_skips by assumption. simpl.
    unfold full_name in Hs. now rewrite Hs.
  - simpl. rewrite <- (app_nil_r pre).
    now rewrite chain_get_file_skips.
  - intros s prefix post e Hs He. simpl.
    rewrite chain_get_file_skips by assumption. simpl.
    unfold full_name in Hs. rewrite Hs.
    destruct e; try reflexivity. now destruct (He msg).
Qed.
End ChainLookup.

(** A chain of a virtual system without [x] and two archives with it:
    the first archive answers. *)
Lemma C2_witness :
  Forall (misses example_host "x") [(example_maps, "")]
  /\ _get_file example_host
               (Chain "" [(example_maps, ""); (example_zip_a, "");
                          (example_zip_b, "")]) "x"
     = Ok (MkFile (Chain "" [(example_maps, ""); (example_zip_a, "");
                             (example_zip_b, "")])
                  "x"
                  (DataFile
                     (MkFile example_zip_a "x"
                             (DataZip {| zipfile.filename := "x";
                                         zipfile.CRC := 11 |})))).
Proof.
  assert (Hpre : Forall (misses example_host "x") [(example_maps, "")]).
  { constructor; [|constructor]. exists "x". reflexivity. }
  split; [exact Hpre|].
  exact (proj1 (C2_chain_lookup_first_match example_host "" "x" _ Hpre)
               example_zip_a "" [(example_zip_b, "")] _ eq_refl).
Defined.

(** C2 as stated fails: no member of the chain over the constrained
    [example_raw] resolves [../x], and the chain raises the member's
    [ValueError], not [FileNotFoundError]; and with two virtual systems
    that both resolve [../x] behind it, the chain still raises instead of
    returning the first resolving member's File. *)
Lemma C2_counterexample :
  (forall f, _get_file example_host example_raw (full_name "" "../x")
             <> Ok f)
  /\ _get_file example_host (FileSystemChain.__init__ [(example_raw, "")])
               "../x"
     = Raise (RawFileSystem.escaped "/data" "../x")
  /\ (forall msg,
         _get_file example_host
                   (FileSystemChain.__init__ [(example_raw, "")]) "../x"
         <> Raise (FileNotFoundError msg))
  /\ (exists f,
         _get_file example_host
                   (VirtualFileSystem.__init__ [("../x", Text "v")] "utf8")
                   (full_name "" "../x") = Ok f)
  /\ _get_file example_host
               (FileSystemChain.__init__
                  [(example_raw, "");
                   (VirtualFileSystem.__init__ [("../x", Text "v")] "utf8", "");
                   (VirtualFileSystem.__init__ [("../x", Text "w")] "utf8", "")])
               "../x"
     = Raise (RawFileSystem.escaped "/data" "../x").
Proof.
  repeat split; try (vm_compute; reflexivity).
  - intros f. vm_compute. discriminate.
  - intros msg. vm_compute. discriminate.
  - eexists. vm_compute. reflexivity.
Qed.

(** ** Equality of file systems *)

Lemma chain_eq_members l l' cp cp' :
  __eq__ (Chain cp l) (Chain cp' l') = true
  <-> Forall2 (fun m m' => __eq__ (fst m) (fst m') = true /\ snd m = snd m')
              l l'.
Proof.
  simpl. revert l'. induction l as [|[a p] l IH]; intros [|[b q] l'].
  - split; [constructor | reflexivity].
  - split; [discriminate | intros H; inversion H].
  - split; [discriminate | intros H; inversion H].
  - rewrite !andb_true_iff, String.eqb_eq, IH. split.
    + intros [[Hab Hpq] Hl]. constructor; [split|]; assumption.
    + intros H. inversion H as [|? ? ? ? [Hab Hpq] Hl]; subst. simpl in *.
      repeat split; assumption.
Qed.

(** C7, as the code has it: two instances of [RawFileSystem], of
    [ZipFileSystem] or of [VPKFileSystem] are equal exactly when their
    normalised paths are, whatever their index or constraint flag; two
    virtual systems are equal exactly when their encodings and their
    folded mappings are; two chains exactly when their members are equal
    in order, prefixes included. *)
Theorem C7_equality_by_class a b :
  same_class a b = true ->
  (path_keyed a = true ->
     (__eq__ a b = true
      <-> os.path.normpath (fs_path a) = os.path.normpath (fs_path b)))
  /\ (forall p m e p' m' e',
         a = Virtual p m e -> b = Virtual p' m' e' ->
         (__eq__ a b = true
          <-> e = e' /\ PyDict.eqb entry_eqb m m' = true))
  /\ (forall p l p' l',
         a = Chain p l -> b = Chain p' l' ->
         (__eq__ a b = true
          <-> Forall2 (fun m m' => __eq__ (fst m) (fst m') = true
                                   /\ snd m = snd m') l l')).
Proof.
  intros Hc. split; [|split].
  - intros Hk. destruct a, b; try discriminate; simpl; apply String.eqb_eq.
  - intros p m e p' m' e' -> ->. simpl.
    now rewrite andb_true_iff, String.eqb_eq.
  - intros p l p' l' -> ->. apply chain_eq_members.
Qed.

(** Two archives at one normalised path are equal, whatever they
    index. *)
Lemma C7_witness :
  same_class (Zip "./pak//a.zip" []) example_zip_a = true
  /\ path_keyed (Zip "./pak//a.zip" []) = true
  /\ __eq__ (Zip "pak/a.zip" []) (Zip "./pak//a.zip" (PyDict.of_items
        [("x", {| zipfile.filename := "x"; zipfile.CRC := 11 |})])) = true.
Proof.
  split; [reflexivity|]. split; [reflexivity|].
  apply (proj1 (C7_equality_by_class
                  (Zip "pak/a.zip" [])
                  (Zip "./pak//a.zip" (PyDict.of_items
                     [("x", {| zipfile.filename := "x"; zipfile.CRC := 11 |})]))
                  eq_refl) eq_refl).
  reflexivity.
Defined.

(** C7 as stated fails: two virtual systems share the locator
    [<virtual>] and the class, and differ as soon as their mappings do. *)
Lemma C7_counterexample :
  same_class (VirtualFileSystem.__init__ [("a.txt", Text "x")] "utf8")
             (VirtualFileSystem.__init__ [] "utf8") = true
  /\ os.path.normpath
       (fs_path (VirtualFileSystem.__init__ [("a.txt", Text "x")] "utf8"))
     = os.path.normpath (fs_path (VirtualFileSystem.__init__ [] "utf8"))
  /\ __eq__ (VirtualFileSystem.__init__ [("a.txt", Text "x")] "utf8")
            (VirtualFileSystem.__init__ [] "utf8") = false.
Proof. repeat split; reflexivity. Qed.

(** ** Traversal of a chain *)

Section ChainWalk.
Variable h : Host.
Variable self : FileSystem.

Lemma reroot_completes prefix files after :
  raised (FileSystemChain.reroot h self prefix files after) = None ->
  yielded (FileSystemChain.reroot h self prefix files after)
  = (reroot_files h self prefix files ++ yielded after)%list
  /\ raised after = None.
Proof.
  unfold raised, yielded, reroot_files.
  induction files as [|file r IH]; simpl; [auto|].
  destruct (os.path.relpath h (path file) prefix); simpl; [|discriminate].
  intros H. destruct (IH H) as [-> ->]. auto.
Qed.

(** A repeating traversal that runs to its end yields what the members
    contribute, member after member. *)
Lemma walk_folder_repeat_completes systems folder :
  raised (FileSystemChain.walk_folder_repeat h (walk_folder h) self
                                             systems folder) = None ->
  yielded (FileSystemChain.walk_folder_repeat h (walk_folder h) self
                                              systems folder)
  = flat_map (member_files h self folder) systems.
Proof.
  induction systems as [|[s prefix] rest IH]; [reflexivity|].
  simpl FileSystemChain.walk_folder_repeat. intros H.
  apply reroot_completes in H. destruct H as [-> Hafter].
  simpl flat_map. unfold member_files at 1, full_name. simpl fst. simpl snd.
  f_equal.
  destruct (snd (walk_folder h s _)); [discriminate|].
  now apply IH.
Qed.

(** The non-repeating traversal keeps, of the Files whose folded path is
    that of [x], the first one that was not seen before. *)
Lemma skip_done_filter x files done :
  filter (folded_is x) (FileSystemChain.skip_done done files)
  = if existsb (String.eqb (PyStr.casefold x)) done then []
    else firstn 1 (filter (folded_is x) files).
Proof.
  revert done. induction files as [|f r IH]; intros done.
  - simpl. now destruct (existsb _ done).
  - cbn [FileSystemChain.skip_done filter].
    destruct (folded_is x f) eqn:E.
    + assert (Heq : PyStr.casefold (path f) = PyStr.casefold x)
        by (now apply String.eqb_eq).
      rewrite Heq.
      destruct (existsb (String.eqb (PyStr.casefold x)) done) eqn:D.
      * rewrite IH, D. reflexivity.
      * cbn [filter]. rewrite E, IH. cbn [existsb].
        rewrite String.eqb_refl. reflexivity.
    + assert (Hne : String.eqb (PyStr.casefold x) (PyStr.casefold (path f))
                    = false)
        by (rewrite String.eqb_sym; exact E).
      destruct (existsb (String.eqb (PyStr.casefold (path f))) done) eqn:D.
      * apply IH.
      * cbn [filter]. rewrite E, IH. cbn [existsb]. rewrite Hne.
        reflexivity.
Qed.

Lemma skip_done_fresh files done f :
  In f (FileSystemChain.skip_done done files) ->
  In f files /\ ~ In (PyStr.casefold (path f)) done.
Proof.
  revert done. induction files as [|g r IH]; intros done; simpl; [easy|].
  destruct (existsb (String.eqb (PyStr.casefold (path g))) done) eqn:D.
  - intros H. destruct (IH _ H). auto.
  - intros [<- | H].
    + split; [now left|]. intros Hin.
      assert (existsb (String.eqb (PyStr.casefold (path g))) done = true).
      { apply existsb_exists. eexists. split; [exact Hin|].
        apply String.eqb_refl. }
      congruence.
    + destruct (IH _ H) as [Hr Hd]. split; [now right|].
      intros Hin. apply Hd. now right.
Qed.

(** No two Files of a non-repeating traversal have the same folded
    path. *)
Lemma skip_done_NoDup files done :
  NoDup (map (fun f => PyStr.casefold (path f))
             (FileSystemChain.skip_done done files)).
Proof.
  revert done. induction files as [|g r IH]; intros done; simpl;
    [constructor|].
  destruct (existsb (String.eqb (PyStr.casefold (path g))) done);
    [apply IH|].
  simpl. constructor; [|apply IH].
  intros Hin. apply in_map_iff in Hin. destruct Hin as (f & Hf & Hin).
  apply skip_done_fresh in Hin. destruct Hin as [_ Hd].
  apply Hd. rewrite Hf. now left.
Qed.

Lemma filter_flat_map {A B} (p : B -> bool) (g : A -> list B) l :
  filter p (flat_map g l) = flat_map (fun a => filter p (g a)) l.
Proof.
  induction l as [|a l IH]; simpl; [reflexivity|].
  now rewrite filter_app, IH.
Qed.

(** A repeating traversal that runs to its end yields, for a path [x],
    what each member contributes for it, in the order of the members;
    the non-repeating traversal yields the first of these, and no folded
    path twice. *)
Lemma chain_walk_by_member systems folder x :
  raised (FileSystemChain.walk_folder_repeat h (walk_folder h) self
                                             systems folder) = None ->
  filter (folded_is x)
         (yielded (FileSystemChain.walk_folder_repeat
                     h (walk_folder h) self systems folder))
  = flat_map (fun member =>
                filter (folded_is x) (member_files h self folder member))
             systems
  /\ filter (folded_is x)
            (yielded (FileSystemChain.walk_folder
                        h (walk_folder h) self systems folder))
     = firstn 1 (flat_map
                   (fun member =>
                      filter (folded_is x)
                             (member_files h self folder member))
                   systems)
  /\ NoDup (map (fun f => PyStr.casefold (path f))
                (yielded (FileSystemChain.walk_folder
                            h (walk_folder h) self systems folder))).
Proof.
  intros Hend.
  pose proof (walk_folder_repeat_completes _ _ Hend) as Hy.
  unfold FileSystemChain.walk_folder.
  set (w := FileSystemChain.walk_folder_repeat _ _ _ _ _) in *.
  unfold yielded in *. simpl. split; [|split].
  - now rewrite Hy, filter_flat_map.
  - rewrite skip_done_filter. simpl.
    now rewrite Hy, filter_flat_map.
  - apply skip_done_NoDup.
Qed.
End ChainWalk.

(** Every File a traversal yields names the system that yielded it. *)
Lemma walk_folder_sys h fs folder f :
  In f (yielded (walk_folder h fs folder)) -> sys f = fs.
Proof.
  unfold yielded.
  destruct fs as [p c | p idx | p idx | p m e | p systems]; simpl.
  - unfold RawFileSystem.walk_folder.
    destruct (RawFileSystem._resolve_path h p c folder); simpl; [|easy].
    generalize (flat_map
                  (fun t : string * list string * list string =>
                     let (y, filenames) := t in
                     let (dirpath, _) := y in
                     map (os.path.join dirpath) filenames) (os.walk h a)).
    intros found. induction found as [|full r IH]; simpl; [easy|].
    destruct (os.path.relpath h full p); simpl; [|easy].
    intros [<- | H]; [reflexivity | now apply IH].
  - intros H. apply in_map_iff in H. now destruct H as (x & <- & _).
  - intros H. apply in_map_iff in H. now destruct H as (x & <- & _).
  - intros H. apply in_map_iff in H. now destruct H as (x & <- & _).
  - set (self := Chain p systems). clearbody self.
    assert (Hskip : forall l done, In f (FileSystemChain.skip_done done l) ->
                                   In f l).
    { induction l as [|g l IH]; intros done; simpl; [easy|].
      destruct (existsb _ done); [right; eauto|].
      intros [<- | H]; [now left | right; eauto]. }
    intros H. apply Hskip in H. clear Hskip.
    induction systems as [|[s prefix] rest IH]; simpl in H; [easy|].
    revert H.
    generalize (fst (walk_folder h s
                       (PyStr.fix_slashes (os.path.join prefix folder)))).
    intros files. induction files as [|file r IHf]; simpl.
    + destruct (snd _); simpl; [easy | exact IH].
    + destruct (os.path.relpath h (path file) prefix); simpl; [|easy].
      intros [<- | H]; [reflexivity | now apply IHf].
Qed.

Lemma member_files_origin h cp systems folder s prefix f :
  In f (member_files h (Chain cp systems) folder (s, prefix)) ->
  FileSystemChain.get_system f = Ok s.
Proof.
  unfold member_files, reroot_files. intros H.
  apply in_flat_map in H. destruct H as (file & Hin & H).
  apply walk_folder_sys in Hin. simpl in *.
  destruct (os.path.relpath h (path file) prefix); [|easy].
  destruct H as [<- | []]. unfold FileSystemChain.get_system. simpl.
  now rewrite Hin.
Qed.

(** In a chain of two members whose own traversals each contribute a
    File for the path [x], a repeating traversal that runs to its end
    yields the two Files, the first member's before the second's, and
    the non-repeating traversal yields the first member's alone. *)
Lemma chain_dedup_vs_repeat_of_listed h cp A pA B pB folder x fa fb wr :
  let chain := Chain cp [(A, pA); (B, pB)] in
  walk_folder_repeat h chain folder = Some wr ->
  raised wr = None ->
  filter (folded_is x) (member_files h chain folder (A, pA)) = [fa] ->
  filter (folded_is x) (member_files h chain folder (B, pB)) = [fb] ->
  filter (folded_is x) (yielded wr) = [fa; fb]
  /\ filter (folded_is x) (yielded (walk_folder h chain folder)) = [fa]
  /\ raised (walk_folder h chain folder) = None
  /\ FileSystemChain.get_system fa = Ok A
  /\ FileSystemChain.get_system fb = Ok B.
Proof.
  intros chain Hwr Hend Ha Hb.
  assert (Hwr' : wr = FileSystemChain.walk_folder_repeat
                        h (walk_folder h) chain [(A, pA); (B, pB)] folder)
    by (symmetry; unfold walk_folder_repeat in Hwr; subst chain;
        now injection Hwr).
  subst wr. clear Hwr.
  pose proof (walk_folder_repeat_completes h chain _ folder Hend) as Hy.
  assert (Hall : filter (folded_is x)
                   (yielded (FileSystemChain.walk_folder_repeat
                               h (walk_folder h) chain
                               [(A, pA); (B, pB)] folder)) = [fa; fb]).
  { rewrite Hy. simpl flat_map. rewrite app_nil_r, filter_app, Ha, Hb.
    reflexivity. }
  split; [exact Hall|]. split; [|split; [exact Hend|]].
  - change (walk_folder h chain folder)
      with (FileSystemChain.walk_folder h (walk_folder h) chain
                                        [(A, pA); (B, pB)] folder).
    unfold FileSystemChain.walk_folder.
    set (w := FileSystemChain.walk_folder_repeat _ _ _ _ _) in *.
    unfold yielded in *. simpl.
    rewrite skip_done_filter. simpl existsb. cbv iota.
    now rewrite Hall.
  - split.
    + apply (member_files_origin h cp [(A, pA); (B, pB)] folder A pA).
      eapply proj1. apply filter_In. fold chain. rewrite Ha. now left.
    + apply (member_files_origin h cp [(A, pA); (B, pB)] folder B pB).
      eapply proj1. apply filter_In. fold chain. rewrite Hb. now left.
Qed.

(** The chain of the two example archives: [x] twice when repeating,
    the first archive's first, and once otherwise. *)
Example chain_of_archives_dedup_vs_repeat :
  (exists wr, walk_folder_repeat example_host example_chain "" = Some wr
              /\ raised wr = None
              /\ filter (folded_is "x") (yielded wr)
                 = [example_x_of_a; example_x_of_b])
  /\ filter (folded_is "x")
            (yielded (walk_folder example_host example_chain ""))
     = [example_x_of_a]
  /\ FileSystemChain.get_system example_x_of_a = Ok example_zip_a.
Proof.
  pose proof (chain_dedup_vs_repeat_of_listed
                example_host "" example_zip_a "" example_zip_b "" "" "x"
                example_x_of_a example_x_of_b _
                eq_refl eq_refl eq_refl eq_refl) as (H1 & H2 & _ & H3 & _).
  split; [|split; [exact H2 | exact H3]].
  eexists. split; [reflexivity|]. split; [reflexivity | exact H1].
Qed.

(* ================================================================== *)
(** * Further properties of the file systems *)

(** ** Existence and lookup *)

(** X1: in every class, [name in fs] answers what a lookup of [name]
    would: true when it returns a File, false when it raises
    [FileNotFoundError], and the same exception otherwise. *)
Theorem X1_exists_agrees_with_lookup h fs name :
  _file_exists h fs name
  = match _get_file h fs name with
    | Ok _ => Ok true
    | Raise (FileNotFoundError _) => Ok false
    | Raise e => Raise e
    end.
Proof.
  destruct fs as [p c | p idx | p idx | p m e | p systems]; simpl.
  - unfold RawFileSystem._file_exists, RawFileSystem._get_file,
      RawFileSystem._resolve_path.
    destruct (c && negb _); simpl; [reflexivity|].
    now destruct (os.path.isfile h _).
  - unfold ZipFileSystem._file_exists, ZipFileSystem._get_file,
      PyDict.contains.
    now destruct (PyDict.get idx _).
  - unfold VPKFileSystem._file_exists, VPKFileSystem._get_file,
      PyDict.contains.
    now destruct (PyDict.get idx _).
  - unfold VirtualFileSystem._file_exists, VirtualFileSystem._get_file,
      PyDict.contains.
    now destruct (PyDict.get m _) as [[fn d]|].
  - reflexivity.
Qed.

Lemma lookup_sys h fs name f : _get_file h fs name = Ok f -> sys f = fs.
Proof.
  destruct fs as [p c | p idx | p idx | p m e | p systems]; simpl.
  - unfold RawFileSystem._get_file.
    destruct (RawFileSystem._resolve_path h p c name); simpl; [|easy].
    destruct (os.path.isfile h a); [|easy]. now intros [= <-].
  - unfold ZipFileSystem._get_file.
    destruct (PyDict.get idx _); [|easy]. now intros [= <-].
  - unfold VPKFileSystem._get_file.
    destruct (PyDict.get idx _); [|easy]. now intros [= <-].
  - unfold VirtualFileSystem._get_file.
    destruct (PyDict.get m _) as [[fn d]|]; [|easy]. now intros [= <-].
  - set (self := Chain p systems). clearbody self.
    induction systems as [|[s prefix] rest IH]; simpl; [easy|].
    destruct (_get_file h s _) as [inner|[msg|msg| | |msg]]; try easy.
    now intros [= <-].
Qed.

(** X2: a File names the system it was obtained from, whether by lookup
    or by traversal, in every class. *)
Theorem X2_file_names_its_system h fs f :
  obtained h fs f -> sys f = fs.
Proof.
  intros [(name & H) | (folder & H)].
  - eapply lookup_sys, H.
  - eapply walk_folder_sys, H.
Qed.

Lemma X2_witness :
  obtained example_host example_chain example_x_of_a
  /\ sys example_x_of_a = example_chain.
Proof.
  assert (H : obtained example_host example_chain example_x_of_a)
    by (left; exists "x"; reflexivity).
  split; [exact H | exact (X2_file_names_its_system _ _ _ H)].
Defined.

(** ** Separators and case in the archives *)

Lemma fix_slashes_idem s :
  PyStr.fix_slashes (PyStr.fix_slashes s) = PyStr.fix_slashes s.
Proof.
  unfold PyStr.fix_slashes, PyStr.replace. rewrite smap_smap.
  apply smap_ext. intros [[] [] [] [] [] [] [] []]; reflexivity.
Qed.

(** X3: a [ZipFileSystem] and a [VPKFileSystem] take a name written
    with backslashes for the name written with slashes: the same
    existence answer and the same File. *)
Theorem X3_archives_accept_both_separators h zp zidx vp vidx name :
  let z := Zip zp zidx in
  let v := VPK vp vidx in
  _get_file h z (PyStr.fix_slashes name) = _get_file h z name
  /\ _file_exists h z (PyStr.fix_slashes name) = _file_exists h z name
  /\ (forall f, _get_file h v (PyStr.fix_slashes name) = Ok f
                <-> _get_file h v name = Ok f)
  /\ _file_exists h v (PyStr.fix_slashes name) = _file_exists h v name.
Proof.
  simpl. unfold ZipFileSystem._get_file, ZipFileSystem._file_exists,
    VPKFileSystem._get_file, VPKFileSystem._file_exists.
  rewrite fix_slashes_idem.
  rewrite <- !casefold_fix_slashes, fix_slashes_idem.
  repeat split; destruct (PyDict.get vidx _); congruence.
Qed.

(** X4: the three indexed classes answer for a name as for every name
    with the same case-folded form: the same existence answer, and a
    File with the same private data. *)
Theorem X4_indexed_lookup_by_folded_name
        h zp zidx vp vidx mp m e name variant :
  PyStr.casefold variant = PyStr.casefold name ->
  Forall (fun fs =>
            _file_exists h fs variant = _file_exists h fs name
            /\ forall f, _get_file h fs name = Ok f ->
                 exists g, _get_file h fs variant = Ok g
                           /\ _data g = _data f)
         [Zip zp zidx; VPK vp vidx; Virtual mp m e].
Proof.
  intros Hc.
  apply Forall_cons; [now apply indexed_lookup_ignores_case|].
  apply Forall_cons; [now apply indexed_lookup_ignores_case|].
  apply Forall_cons; [now apply indexed_lookup_ignores_case|].
  apply Forall_nil.
Qed.

(** [MAPS/DE_DUST.BSP] is answered as [maps/de_dust.bsp]. *)
Lemma X4_witness :
  PyStr.casefold "MAPS/DE_DUST.BSP" = PyStr.casefold "maps/de_dust.bsp"
  /\ Forall (fun fs =>
               _file_exists example_host fs "MAPS/DE_DUST.BSP"
               = _file_exists example_host fs "maps/de_dust.bsp"
               /\ forall f,
                    _get_file example_host fs "maps/de_dust.bsp" = Ok f ->
                    exists g,
                      _get_file example_host fs "MAPS/DE_DUST.BSP" = Ok g
                      /\ _data g = _data f)
            [example_zip_a; example_vpk; example_maps].
Proof.
  split; [reflexivity|].
  exact (X4_indexed_lookup_by_folded_name
           example_host _ _ _ _ _ _ _
           "maps/de_dust.bsp" "MAPS/DE_DUST.BSP" eq_refl).
Defined.

(** ** Dictionaries built from items *)

Section DictBuild.
Context {V : Type}.
Implicit Types (d : PyDict.dict V) (k : string) (v : V).

Let put d (kv : string * V) := PyDict.set d (fst kv) (snd kv).

Lemma set_fresh d k v :
  ~ In k (map fst d) -> PyDict.set d k v = (d ++ [(k, v)])%list.
Proof.
  induction d as [|[k' v'] d IH]; simpl; [reflexivity|].
  intros H. destruct (String.eqb k' k) eqn:E.
  - apply String.eqb_eq in E. subst. exfalso. apply H. now left.
  - rewrite IH; [reflexivity|]. intros Hin. apply H. now right.
Qed.

Lemma set_keys_known d k v :
  In k (map fst d) -> map fst (PyDict.set d k v) = map fst d.
Proof.
  induction d as [|[k' v'] d IH]; simpl; [easy|].
  intros H. destruct (String.eqb k' k) eqn:E; simpl; [reflexivity|].
  apply String.eqb_neq in E. destruct H as [H | H]; [congruence|].
  now rewrite IH.
Qed.

Lemma set_NoDup d k v :
  NoDup (map fst d) -> NoDup (map fst (PyDict.set d k v)).
Proof.
  intros H. destruct (in_dec string_dec k (map fst d)) as [Hin | Hout].
  - now rewrite set_keys_known.
  - rewrite set_fresh, map_app by assumption. simpl.
    apply NoDup_app; [assumption | repeat constructor; easy |].
    intros a Ha [<- | []]. contradiction.
Qed.

Lemma fold_set_NoDup (items : list (string * V)) d :
  NoDup (map fst d) -> NoDup (map fst (fold_left put items d)).
Proof.
  revert d. induction items as [|kv items IH]; intros d H; simpl;
    [assumption|].
  apply IH. now apply set_NoDup.
Qed.

(** A dictionary built from items holds no key twice. *)
Lemma of_items_NoDup (items : list (string * V)) :
  NoDup (map fst (PyDict.of_items items)).
Proof. apply fold_set_NoDup. constructor. Qed.

Lemma In_get d k v :
  NoDup (map fst d) -> In (k, v) d -> PyDict.get d k = Some v.
Proof.
  induction d as [|[k' v'] d IH]; simpl; [easy|].
  intros Hnd [H | H].
  - injection H as -> ->. now rewrite String.eqb_refl.
  - inversion Hnd as [|? ? Hk Hd]; subst.
    destruct (String.eqb k' k) eqn:E; [|now apply IH].
    apply String.eqb_eq in E. subst. exfalso. apply Hk.
    apply in_map_iff. now exists (k, v).
Qed.

Lemma fold_set_In (items : list (string * V)) d x :
  In x (fold_left put items d) -> In x items \/ In x d.
Proof.
  revert d. induction items as [|[k0 v0] items IH]; intros d H; simpl in *;
    [now right|].
  destruct (IH _ H) as [H' | H']; [left; now right|].
  unfold put in H'. simpl in H'. apply set_values_In in H'.
  destruct H' as [-> | [H' | (v' & _ & ->)]]; auto.
Qed.

(** Every entry of a built dictionary is one of the items. *)
Lemma of_items_entry (items : list (string * V)) x :
  In x (PyDict.of_items items) -> In x items.
Proof. intros H. now destruct (fold_set_In _ _ _ H) as [? | []]. Qed.

Lemma fold_set_get_other (items : list (string * V)) d k :
  ~ In k (map fst items) ->
  PyDict.get (fold_left put items d) k = PyDict.get d k.
Proof.
  revert d. induction items as [|[k0 v0] items IH]; intros d H; simpl;
    [reflexivity|].
  rewrite IH by (intros Hin; apply H; now right).
  unfold put. simpl. apply get_set_other. intros ->. apply H. now left.
Qed.

(** The last item under a key is the one a lookup finds. *)
Lemma of_items_last (before after : list (string * V)) k v :
  ~ In k (map fst after) ->
  PyDict.get (PyDict.of_items (before ++ (k, v) :: after)) k = Some v.
Proof.
  intros H. unfold PyDict.of_items. rewrite fold_left_app. simpl.
  change (fun d kv => PyDict.set d (fst kv) (snd kv)) with put.
  rewrite fold_set_get_other by assumption. apply get_set_same.
Qed.

(** Items with distinct keys are stored as they come. *)
Lemma of_items_distinct (items : list (string * V)) :
  NoDup (map fst items) -> PyDict.of_items items = items.
Proof.
  intros H. unfold PyDict.of_items.
  change (fun d kv => PyDict.set d (fst kv) (snd kv)) with put.
  assert (G : forall d, NoDup (map fst (d ++ items)) ->
                        fold_left put items d = (d ++ items)%list).
  { clear H. induction items as [|[k v] items IH]; intros d Hd; simpl.
    - now rewrite app_nil_r.
    - unfold put at 2. simpl. rewrite set_fresh.
      + rewrite IH; rewrite <- app_assoc; [reflexivity | exact Hd].
      + rewrite map_app in Hd. simpl in Hd.
        apply NoDup_remove_2 in Hd. intros Hin. apply Hd.
        apply in_or_app. now left. }
  now apply (G []).
Qed.
End DictBuild.

(** ** The index of a [ZipFileSystem] *)

Section ZipIndex.
Import PyStr.

Lemma last_char_smap f s : last_char (smap f s) = option_map f (last_char s).
Proof.
  induction s as [|c s IH]; [reflexivity|].
  destruct s as [|d s]; [reflexivity | exact IH].
Qed.

Lemma endswith_smap f c s :
  keeps f c -> endswith_char (smap f s) c = endswith_char s c.
Proof.
  intros H. unfold endswith_char. rewrite last_char_smap.
  destruct (last_char s); simpl; [apply H | reflexivity].
Qed.

Lemma endswith_fix_slashes s :
  endswith_char (fix_slashes s) slash
  = endswith_char s slash || endswith_char s backslash.
Proof.
  unfold endswith_char, fix_slashes, replace. rewrite last_char_smap.
  destruct (last_char s) as [c|]; simpl; [|reflexivity].
  destruct c as [[] [] [] [] [] [] [] []]; reflexivity.
Qed.

(** Every entry of the index built by [__init__] is keyed by the folded
    name of an archive member that is no directory marker. *)
Lemma zip_index_entry p infolist key info idx :
  ZipFileSystem.__init__ p infolist = Zip p idx ->
  In (key, info) idx ->
  key = casefold (zipfile.filename info)
  /\ In info infolist
  /\ endswith_char (zipfile.filename info) slash = false.
Proof.
  unfold ZipFileSystem.__init__. intros [= <-] H.
  apply of_items_entry, in_map_iff in H.
  destruct H as (i & [= <- <-] & H). apply filter_In in H.
  destruct H as [Hin Hdir]. apply negb_true_iff in Hdir. auto.
Qed.

(** X5: a [ZipFileSystem] never shows the archive's directory markers: a
    name that ends in a slash or a backslash does not exist in it, and no
    File of a traversal has a path ending in a slash; each such File
    carries a member of the archive under the member's own name. *)
Theorem X5_zip_hides_directory_markers h p infolist :
  let z := ZipFileSystem.__init__ p infolist in
  (forall name,
      endswith_char name slash = true \/ endswith_char name backslash = true ->
      _file_exists h z name = Ok false)
  /\ (forall folder f,
         In f (yielded (walk_folder h z folder)) ->
         endswith_char (path f) slash = false
         /\ exists info, In info infolist
                         /\ f = MkFile z (zipfile.filename info)
                                       (DataZip info)).
Proof.
  intros z. split.
  - intros name Hname. simpl. unfold ZipFileSystem._file_exists,
      PyDict.contains.
    destruct (PyDict.get _ _) as [info|] eqn:E; [|reflexivity].
    exfalso. apply get_In in E.
    destruct (zip_index_entry p infolist _ _ _ eq_refl E) as (Hk & _ & Hd).
    assert (Hend : endswith_char (casefold (fix_slashes name)) slash = true).
    { unfold casefold. rewrite endswith_smap by exact lower_keeps_slash.
      rewrite endswith_fix_slashes. now apply orb_true_iff. }
    rewrite Hk in Hend. unfold casefold in Hend.
    rewrite endswith_smap in Hend by exact lower_keeps_slash. congruence.
  - intros folder f Hf. simpl in Hf. apply zip_walk_In in Hf.
    destruct Hf as (key & info & Hin & ->).
    destruct (zip_index_entry p infolist _ _ _ eq_refl Hin) as (_ & Hi & Hd).
    split; [exact Hd | now exists info].
Qed.

(** X6: of the archive members whose names agree up to case, the last one
    is the one a [ZipFileSystem] serves: a lookup by any spelling of the
    name, in either case and with either separator, returns a File with
    that member, and its cache key is the member's CRC. *)
Theorem X6_zip_serves_last_member h p before info after name :
  endswith_char (zipfile.filename info) slash = false ->
  (forall later, In later after ->
                 casefold (zipfile.filename later)
                 <> casefold (zipfile.filename info)) ->
  casefold (fix_slashes name) = casefold (zipfile.filename info) ->
  let z := ZipFileSystem.__init__ p (before ++ info :: after) in
  _get_file h z name = Ok (MkFile z (fix_slashes name) (DataZip info))
  /\ cache_key h (MkFile z (fix_slashes name) (DataZip info))
     = Ok (zipfile.CRC info).
Proof.
  intros Hdir Hlater Hname z. split; [|reflexivity].
  subst z. unfold ZipFileSystem.__init__.
  set (idx := PyDict.of_items _).
  assert (Hget : PyDict.get idx (casefold (zipfile.filename info))
                 = Some info).
  { subst idx. rewrite filter_app. simpl. rewrite Hdir. simpl.
    rewrite map_app. simpl. apply of_items_last.
    intros Hin. apply in_map_iff in Hin. destruct Hin as ([k i] & Hk & Hin).
    apply in_map_iff in Hin. destruct Hin as (later & [= <- <-] & Hin).
    apply filter_In in Hin. simpl in Hk. now apply (Hlater later). }
  simpl. unfold ZipFileSystem._get_file. now rewrite Hname, Hget.
Qed.
End ZipIndex.

(** The archive [x]/11, [X]/21 serves [X]/21 under the name [x]. *)
Lemma X6_witness :
  _get_file example_host
            (ZipFileSystem.__init__ "a.zip"
               [ {| zipfile.filename := "x"; zipfile.CRC := 11 |};
                 {| zipfile.filename := "X"; zipfile.CRC := 21 |} ])
            "x"
  = Ok (MkFile (ZipFileSystem.__init__ "a.zip"
                  [ {| zipfile.filename := "x"; zipfile.CRC := 11 |};
                    {| zipfile.filename := "X"; zipfile.CRC := 21 |} ])
               "x"
               (DataZip {| zipfile.filename := "X"; zipfile.CRC := 21 |})).
Proof.
  apply (X6_zip_serves_last_member example_host "a.zip"
           [ {| zipfile.filename := "x"; zipfile.CRC := 11 |} ]
           {| zipfile.filename := "X"; zipfile.CRC := 21 |} [] "x").
  - reflexivity.
  - intros later [].
  - reflexivity.
Defined.

(** ** From a traversal back to a lookup *)

Section ListedThenLookedUp.
Import PyStr.
Variable h : Host.

Lemma virtual_index_entry mapping key fn d :
  In (key, (fn, d))
     (PyDict.of_items
        (map (fun fd : string * Content =>
                (VirtualFileSystem._clean_path (Name (fst fd)),
                 (fst fd, snd fd)))
             (PyDict.of_items mapping))) ->
  key = VirtualFileSystem._clean_path (Name fn) /\ In (fn, d) mapping.
Proof.
  intros H. apply of_items_entry, in_map_iff in H.
  destruct H as ([fn' d'] & [= <- <- <-] & H).
  split; [reflexivity | now apply of_items_entry].
Qed.

(** X7: every File a traversal of a [VirtualFileSystem] yields is the
    File a lookup of its path returns, and its path exists. *)
Theorem X7_virtual_listed_is_found mapping encoding folder f :
  let fs := VirtualFileSystem.__init__ mapping encoding in
  In f (yielded (walk_folder h fs folder)) ->
  _get_file h fs (path f) = Ok f /\ _file_exists h fs (path f) = Ok true.
Proof.
  intros fs Hf. subst fs. unfold VirtualFileSystem.__init__ in *.
  set (idx := PyDict.of_items _) in *.
  simpl in Hf. unfold VirtualFileSystem.walk_folder, yielded in Hf.
  simpl in Hf. apply in_map_iff in Hf. destruct Hf as ([fn d] & <- & Hf).
  apply filter_In in Hf. destruct Hf as [Hf _].
  unfold PyDict.values in Hf. apply in_map_iff in Hf.
  destruct Hf as ([key [fn' d']] & [= -> ->] & Hin).
  destruct (virtual_index_entry _ _ _ _ Hin) as [-> _].
  assert (Hget : PyDict.get idx (VirtualFileSystem._clean_path (Name fn))
                 = Some (fn, d))
    by (apply In_get; [apply of_items_NoDup | exact Hin]).
  simpl. unfold VirtualFileSystem._get_file, VirtualFileSystem._file_exists,
    PyDict.contains.
  now rewrite Hget.
Qed.

(** X8: every File a traversal of a [VPKFileSystem] yields can be looked
    up by its path: the lookup returns a File with the same archive entry
    and the same cache key. *)
Theorem X8_vpk_listed_is_found p files folder f :
  let fs := VPKFileSystem.__init__ p files in
  In f (yielded (walk_folder h fs folder)) ->
  exists g, _get_file h fs (path f) = Ok g
            /\ _data g = _data f
            /\ cache_key h g = cache_key h f.
Proof.
  intros fs Hf. subst fs. unfold VPKFileSystem.__init__ in *.
  set (idx := PyDict.of_items _) in *.
  simpl in Hf. unfold VPKFileSystem.walk_folder, yielded in Hf.
  simpl in Hf. apply in_map_iff in Hf. destruct Hf as (file & <- & Hf).
  apply filter_In in Hf. destruct Hf as [Hf _].
  unfold PyDict.values in Hf. apply in_map_iff in Hf.
  destruct Hf as ([key file'] & Hk & Hin). simpl in Hk. subst file'.
  assert (Hkey : key = casefold (fix_slashes (vpk.filename file))).
  { subst idx. apply of_items_entry, in_map_iff in Hin.
    now destruct Hin as (x & [= <- <-] & _). }
  assert (Hget : PyDict.get idx key = Some file)
    by (apply In_get; [apply of_items_NoDup | exact Hin]).
  simpl. unfold VPKFileSystem._get_file.
  rewrite <- casefold_fix_slashes, <- Hkey, Hget. eauto.
Qed.

(** X9: a File a traversal of a [ZipFileSystem] yields, whose path holds
    no backslash, is the File a lookup of its path returns. *)
Theorem X9_zip_listed_is_found p infolist folder f :
  let fs := ZipFileSystem.__init__ p infolist in
  In f (yielded (walk_folder h fs folder)) ->
  fix_slashes (path f) = path f ->
  _get_file h fs (path f) = Ok f.
Proof.
  intros fs Hf Hfix. subst fs.
  pose proof Hf as Hw. simpl in Hw. apply zip_walk_In in Hw.
  destruct Hw as (key & info & Hin & ->). simpl in Hfix.
  destruct (zip_index_entry p infolist _ _ _ eq_refl Hin) as (-> & _ & _).
  unfold ZipFileSystem.__init__ in *. set (idx := PyDict.of_items _) in *.
  assert (Hget : PyDict.get idx (casefold (zipfile.filename info))
                 = Some info)
    by (apply In_get; [apply of_items_NoDup | exact Hin]).
  simpl. unfold ZipFileSystem._get_file. now rewrite Hfix, Hget.
Qed.
End ListedThenLookedUp.

(** The virtual system with [maps/a.bsp], listed under [maps]. *)
Lemma X7_witness :
  In (MkFile (VirtualFileSystem.__init__ [("maps/a.bsp", Text "x")] "utf8")
             "maps/a.bsp" (DataStr "maps/a.bsp"))
     (yielded (walk_folder example_host
                 (VirtualFileSystem.__init__ [("maps/a.bsp", Text "x")] "utf8")
                 "maps"))
  /\ _get_file example_host
               (VirtualFileSystem.__init__ [("maps/a.bsp", Text "x")] "utf8")
               "maps/a.bsp"
     = Ok (MkFile (VirtualFileSystem.__init__ [("maps/a.bsp", Text "x")]
                                              "utf8")
                  "maps/a.bsp" (DataStr "maps/a.bsp")).
Proof.
  assert (H : In (MkFile (VirtualFileSystem.__init__
                            [("maps/a.bsp", Text "x")] "utf8")
                         "maps/a.bsp" (DataStr "maps/a.bsp"))
                 (yielded (walk_folder example_host
                             (VirtualFileSystem.__init__
                                [("maps/a.bsp", Text "x")] "utf8")
                             "maps")))
    by (now left).
  split; [exact H|].
  exact (proj1 (X7_virtual_listed_is_found example_host _ "utf8" "maps" _ H)).
Defined.

(** The package's entry, listed under [models], is found by the name it
    is listed with. *)
Lemma X8_witness :
  In (MkFile example_vpk "Models\Props/A.mdl" (DataVPK example_vpk_entry))
     (yielded (walk_folder example_host example_vpk "models"))
  /\ exists g, _get_file example_host example_vpk "Models\Props/A.mdl" = Ok g
               /\ _data g = DataVPK example_vpk_entry
               /\ cache_key example_host g = Ok 77%Z.
Proof.
  assert (H : In (MkFile example_vpk "Models\Props/A.mdl"
                         (DataVPK example_vpk_entry))
                 (yielded (walk_folder example_host example_vpk "models")))
    by (now left).
  split; [exact H|].
  exact (X8_vpk_listed_is_found example_host "pak01_dir.vpk"
           [example_vpk_entry] "models" _ H).
Defined.

(** The first example archive lists [x] and finds it again. *)
Lemma X9_witness :
  In example_x_in_a (yielded (walk_folder example_host example_zip_a ""))
  /\ _get_file example_host example_zip_a "x" = Ok example_x_in_a.
Proof.
  assert (H : In example_x_in_a
                 (yielded (walk_folder example_host example_zip_a "")))
    by (now left).
  split; [exact H|].
  exact (X9_zip_listed_is_found example_host "a.zip" _ "" _ H eq_refl).
Defined.

(** ** What a virtual system stores *)

(** X10: a [VirtualFileSystem] built from a mapping serves, under a path
    [p] of the mapping that no later path equals after cleaning, the
    content given for [p]: a lookup returns a File named [p], [open_bin]
    gives bytes as stored and text encoded with the system's encoding,
    and [open_str] gives text as stored and bytes decoded with the
    caller's encoding, both with universal newlines. *)
Theorem X10_virtual_serves_given_content h before p d after encoding :
  NoDup (map fst (before ++ (p, d) :: after)) ->
  (forall q, In q (map fst after) ->
             VirtualFileSystem._clean_path (Name q)
             <> VirtualFileSystem._clean_path (Name p)) ->
  let fs := VirtualFileSystem.__init__ (before ++ (p, d) :: after) encoding in
  _get_file h fs p = Ok (MkFile fs p (DataStr p))
  /\ open_bin h fs (Name p)
     = Some (match d with
             | Bytes b => Ok b
             | Text s => match str_encode h encoding s with
                         | Some b => Ok b
                         | None => Raise UnicodeError
                         end
             end)
  /\ forall enc,
       open_str h fs (Name p) enc
       = Some (match d with
               | Text s => Ok (io.universal_newlines s)
               | Bytes b => match bytes_decode h enc b with
                            | Some s => Ok (io.universal_newlines s)
                            | None => Raise UnicodeError
                            end
               end).
Proof.
  intros Hnd Hafter fs. subst fs. unfold VirtualFileSystem.__init__.
  rewrite (of_items_distinct _ Hnd).
  set (idx := PyDict.of_items _).
  assert (Hget : PyDict.get idx (VirtualFileSystem._clean_path (Name p))
                 = Some (p, d)).
  { subst idx. rewrite map_app. simpl. apply of_items_last.
    rewrite map_map. simpl. intros Hin. apply in_map_iff in Hin.
    destruct Hin as ([q dq] & Hq & Hin). simpl in Hq.
    apply (Hafter q); [|exact Hq]. apply in_map_iff. now exists (q, dq). }
  simpl. unfold VirtualFileSystem._get_file, VirtualFileSystem.open_bin,
    VirtualFileSystem.open_str.
  rewrite Hget. repeat split; destruct d; reflexivity.
Qed.

(** A virtual system given [a.txt] serves it. *)
Lemma X10_witness :
  _get_file example_host
            (VirtualFileSystem.__init__ [("a.txt", Text hello_crlf)] "utf8")
            "a.txt"
  = Ok (MkFile (VirtualFileSystem.__init__ [("a.txt", Text hello_crlf)]
                                           "utf8")
               "a.txt" (DataStr "a.txt")).
Proof.
  apply (X10_virtual_serves_given_content example_host []
           "a.txt" (Text hello_crlf) [] "utf8").
  - repeat constructor. intros [].
  - intros q [].
Defined.

(** ** Adding systems to a chain *)

Section ChainAdd.
Variable h : Host.

(** The File a chain hands out, seen from another state of the chain. *)
Let retag (self : FileSystem) (r : result File) : result File :=
  match r with
  | Ok f => Ok (MkFile self (path f) (_data f))
  | Raise e => Raise e
  end.

Lemma chain_get_file_retag self self' l x :
  FileSystemChain._get_file (_get_file h) self l x
  = retag self (FileSystemChain._get_file (_get_file h) self' l x).
Proof.
  induction l as [|[s prefix] l IH]; simpl; [reflexivity|].
  destruct (_get_file h s _) as [inner|[msg|msg| | |msg]]; try reflexivity.
  exact IH.
Qed.

Lemma chain_get_file_app self l rest x :
  FileSystemChain._get_file (_get_file h) self (l ++ rest) x
  = match FileSystemChain._get_file (_get_file h) self l x with
    | Raise (FileNotFoundError _) =>
        FileSystemChain._get_file (_get_file h) self rest x
    | r => r
    end.
Proof.
  induction l as [|[s prefix] l IH]; simpl; [reflexivity|].
  destruct (_get_file h s _) as [inner|[msg|msg| | |msg]]; try reflexivity.
  exact IH.
Qed.

(** X11: [add_sys] without priority leaves every answer of the chain
    other than [FileNotFoundError] as it was, and lets the added system
    answer for the names the chain did not find; with priority the added
    system answers first, and the chain's earlier answer stands for the
    names the added system does not find.  A chain built from a list of
    systems is the empty chain with each of them added in turn. *)
Theorem X11_add_sys_orders_answers cp systems s prefix x :
  let chain := Chain cp systems in
  let added := fun self =>
    match _get_file h s (full_name prefix x) with
    | Ok inner => Ok (MkFile self (full_name prefix x) (DataFile inner))
    | Raise (FileNotFoundError _) => Raise (FileNotFoundError x)
    | Raise e => Raise e
    end in
  (let chain' := FileSystemChain.add_sys chain s prefix false in
   _get_file h chain' x
   = match _get_file h chain x with
     | Ok f => Ok (MkFile chain' (path f) (_data f))
     | Raise (FileNotFoundError _) => added chain'
     | Raise e => Raise e
     end)
  /\ (let chain' := FileSystemChain.add_sys chain s prefix true in
      _get_file h chain' x
      = match _get_file h s (full_name prefix x) with
        | Raise (FileNotFoundError _) =>
            match _get_file h chain x with
            | Ok f => Ok (MkFile chain' (path f) (_data f))
            | Raise e => Raise e
            end
        | _ => added chain'
        end)
  /\ fold_left (fun c member =>
                  FileSystemChain.add_sys c (fst member) (snd member) false)
               systems (FileSystemChain.__init__ [])
     = FileSystemChain.__init__ systems.
Proof.
  intros chain added. subst chain added. unfold full_name.
  split; [|split].
  - simpl. rewrite chain_get_file_app.
    rewrite (chain_get_file_retag _ (Chain cp systems) systems).
    destruct (FileSystemChain._get_file _ (Chain cp systems) systems x)
      as [f|[msg|msg| | |msg]]; reflexivity.
  - simpl.
    destruct (_get_file h s _) as [inner|[msg|msg| | |msg]]; try reflexivity.
    rewrite (chain_get_file_retag _ (Chain cp systems) systems).
    now destruct (FileSystemChain._get_file _ (Chain cp systems) systems x).
  - unfold FileSystemChain.__init__.
    assert (G : forall l acc,
               fold_left (fun c member =>
                            FileSystemChain.add_sys c (fst member)
                                                    (snd member) false)
                         l (Chain "" acc)
               = Chain "" (acc ++ l)).
    { induction l as [|[a p] l IH]; intros acc; simpl.
      - now rewrite app_nil_r.
      - rewrite IH, <- app_assoc. reflexivity. }
    apply (G systems []).
Qed.
End ChainAdd.

(** ** Files of a chain *)

Lemma chain_walk_repeat_In h self systems folder f :
  In f (yielded (FileSystemChain.walk_folder_repeat h (walk_folder h) self
                                                    systems folder)) ->
  exists member inner rel,
    In member systems
    /\ In inner (yielded (walk_folder h (fst member)
                                      (full_name (snd member) folder)))
    /\ os.path.relpath h (path inner) (snd member) = Some rel
    /\ f = MkFile self (PyStr.fix_slashes rel) (DataFile inner).
Proof.
  unfold yielded.
  induction systems as [|[s prefix] rest IH]; simpl; [easy|].
  assert (G : forall files after,
             In f (fst (FileSystemChain.reroot h self prefix files after)) ->
             (exists inner rel,
                 In inner files
                 /\ os.path.relpath h (path inner) prefix = Some rel
                 /\ f = MkFile self (PyStr.fix_slashes rel) (DataFile inner))
             \/ In f (fst after)).
  { induction files as [|file r IHf]; intros after; simpl; [now right|].
    destruct (os.path.relpath h (path file) prefix) as [rel|] eqn:E;
      simpl; [|easy].
    intros [<- | H].
    - left. exists file, rel. auto.
    - destruct (IHf _ H) as [(inner & rel' & ? & ? & ?) | ?]; [|now right].
      left. exists inner, rel'. auto. }
  intros H. apply G in H. destruct H as [(inner & rel & Hin & Hrel & ->) | H].
  - exists (s, prefix), inner, rel. simpl. auto.
  - destruct (snd (walk_folder h s _)); simpl in H; [easy|].
    destruct (IH H) as (member & inner & rel & ? & ? & ? & ?).
    exists member, inner, rel. auto.
Qed.

(** X12: a File obtained from a chain, by lookup or by traversal, wraps
    a File obtained from one of the chain's members: [get_system] names
    that member, and the File's cache key is the wrapped File's. *)
Theorem X12_chain_file_wraps_member_file h cp systems f :
  obtained h (Chain cp systems) f ->
  exists member inner,
    In member systems
    /\ obtained h (fst member) inner
    /\ _data f = DataFile inner
    /\ FileSystemChain.get_system f = Ok (fst member)
    /\ cache_key h f = cache_key h inner.
Proof.
  intros [(x & H) | (folder & H)].
  - simpl in H. set (self := Chain cp systems) in H.
    assert (G : exists member inner,
               In member systems
               /\ _get_file h (fst member) (full_name (snd member) x)
                  = Ok inner
               /\ f = MkFile self (full_name (snd member) x) (DataFile inner)).
    { clearbody self. induction systems as [|[s prefix] rest IH];
        simpl in H; [easy|].
      destruct (_get_file h s _) as [inner|[msg|msg| | |msg]] eqn:E; try easy.
      - injection H as <-. exists (s, prefix), inner. simpl. auto.
      - destruct (IH H) as (member & inner & ? & ? & ?).
        exists member, inner. split; [now right | auto]. }
    destruct G as (member & inner & Hin & Hget & ->).
    exists member, inner. repeat split; try assumption.
    + left. eauto.
    + unfold FileSystemChain.get_system. simpl.
      now rewrite (lookup_sys _ _ _ _ Hget).
  - simpl in H. unfold FileSystemChain.walk_folder, yielded in H.
    simpl in H. apply skip_done_fresh in H. destruct H as [H _].
    apply chain_walk_repeat_In in H.
    destruct H as (member & inner & rel & Hin & Hw & _ & ->).
    exists member, inner. repeat split; try assumption.
    + right. eauto.
    + unfold FileSystemChain.get_system. simpl.
      now rewrite (walk_folder_sys _ _ _ _ Hw).
Qed.

(** The chain of the two example archives hands out [x] of the first
    one, with that entry's CRC as cache key. *)
Lemma X12_witness :
  obtained example_host example_chain example_x_of_a
  /\ FileSystemChain.get_system example_x_of_a = Ok example_zip_a
  /\ cache_key example_host example_x_of_a = Ok 11%Z.
Proof.
  assert (H : obtained example_host example_chain example_x_of_a)
    by (left; exists "x"; reflexivity).
  split; [exact H|].
  destruct (X12_chain_file_wraps_member_file example_host "" _ _ H)
    as (member & inner & _ & _ & Hd & Hs & Hk).
  injection Hd as <-. split; [reflexivity | exact Hk].
Defined.

(** X13: for any chain, the non-repeating traversal ends as the
    repeating one does, yields only Files the repeating one yields, no
    two with the same folded path, and of the repeating traversal's Files
    with one folded path exactly the first. *)
Theorem X13_chain_walk_keeps_first_per_path h cp systems folder :
  let chain := Chain cp systems in
  let all := FileSystemChain.walk_folder_repeat
               h (walk_folder h) chain systems folder in
  let once := walk_folder h chain folder in
  raised once = raised all
  /\ incl (yielded once) (yielded all)
  /\ NoDup (map (fun f => PyStr.casefold (path f)) (yielded once))
  /\ (forall x, filter (folded_is x) (yielded once)
                = firstn 1 (filter (folded_is x) (yielded all)))
  /\ (forall g, In g (yielded all) ->
                exists f, In f (yielded once)
                          /\ PyStr.casefold (path f)
                             = PyStr.casefold (path g)).
Proof.
  intros chain all once. subst once. simpl.
  unfold FileSystemChain.walk_folder. fold chain. fold all.
  unfold yielded, raised. simpl.
  assert (Hfirst : forall x,
             filter (folded_is x) (FileSystemChain.skip_done [] (fst all))
             = firstn 1 (filter (folded_is x) (fst all)))
    by (intros x; now rewrite skip_done_filter).
  repeat split.
  - intros f Hf. now apply skip_done_fresh in Hf.
  - apply skip_done_NoDup.
  - exact Hfirst.
  - intros g Hg.
    assert (Hin : In g (filter (folded_is (path g)) (fst all)))
      by (apply filter_In; split; [exact Hg | apply String.eqb_refl]).
    specialize (Hfirst (path g)).
    destruct (filter (folded_is (path g)) (fst all)) as [|f0 l]; [easy|].
    simpl in Hfirst.
    assert (Hf0 : In f0 (filter (folded_is (path g))
                                (FileSystemChain.skip_done [] (fst all))))
      by (rewrite Hfirst; now left).
    apply filter_In in Hf0. destruct Hf0 as [Hf0 Hx].
    exists f0. split; [exact Hf0 | now apply String.eqb_eq].
Qed.

(** ** Text read from a virtual system *)

Lemma universal_newlines_no_CR_aux s :
  all_chars (fun c => c <> io.CR) (io.universal_newlines s)
  /\ forall c, all_chars (fun c => c <> io.CR)
                         (io.universal_newlines (String c s)).
Proof.
  induction s as [|d r [IH1 IH2]].
  - split; [exact I|]. intros c. simpl.
    destruct (Ascii.eqb c io.CR) eqn:E; simpl.
    + split; [discriminate | exact I].
    + apply Ascii.eqb_neq in E. split; [exact E | exact I].
  - split; [apply IH2|]. intros c.
    change (io.universal_newlines (String c (String d r)))
      with (if Ascii.eqb c io.CR then
              if Ascii.eqb d io.LF
              then String io.LF (io.universal_newlines r)
              else String io.LF (io.universal_newlines (String d r))
            else String c (io.universal_newlines (String d r))).
    destruct (Ascii.eqb c io.CR) eqn:E.
    + destruct (Ascii.eqb d io.LF); (split; [discriminate|]);
        [exact IH1 | apply IH2].
    + apply Ascii.eqb_neq in E. split; [exact E | apply IH2].
Qed.

Lemma universal_newlines_fixed s :
  all_chars (fun c => c <> io.CR) s -> io.universal_newlines s = s.
Proof.
  induction s as [|c s IH]; [reflexivity|]. intros [Hc Hs].
  apply Ascii.eqb_neq in Hc. simpl. rewrite Hc. now rewrite IH.
Qed.

(** X14: whatever a [VirtualFileSystem] stores under a name, text or
    bytes, the text [open_str] gives for it holds no carriage return, so
    that translating its newlines again changes nothing. *)
Theorem X14_virtual_text_has_no_carriage_return h vp m benc name enc text :
  open_str h (Virtual vp m benc) name enc = Some (Ok text) ->
  all_chars (fun c => c <> io.CR) text
  /\ io.universal_newlines text = text.
Proof.
  simpl. unfold VirtualFileSystem.open_str. intros H.
  assert (G : all_chars (fun c => c <> io.CR) text).
  { destruct (PyDict.get m _) as [[fn [s|b]]|]; try discriminate.
    - injection H as <-. apply universal_newlines_no_CR_aux.
    - destruct (bytes_decode h enc b); [|discriminate].
      injection H as <-. apply universal_newlines_no_CR_aux. }
  split; [exact G | now apply universal_newlines_fixed].
Qed.

(** Bytes with a carriage return, decoded and read as text. *)
Lemma X14_witness :
  open_str example_host
           (VirtualFileSystem.__init__ [("b.bin", Bytes hello_crlf)] "utf8")
           (Name "B.BIN") "latin1"
  = Some (Ok hello_lf)
  /\ all_chars (fun c => c <> io.CR) hello_lf.
Proof.
  assert (H : open_str example_host
                (VirtualFileSystem.__init__ [("b.bin", Bytes hello_crlf)]
                                            "utf8")
                (Name "B.BIN") "latin1"
              = Some (Ok hello_lf)) by reflexivity.
  split; [exact H|].
  exact (proj1 (X14_virtual_text_has_no_carriage_return
                  example_host _ _ _ _ _ _ H)).
Defined.

(** ** What a [RawFileSystem] raises *)

Section RawRaises.
Import PyStr.
Variable h : Host.

Lemma normpath_nonempty p : is_empty (posixpath.normpath p) = false.
Proof.
  unfold posixpath.normpath. destruct (is_empty p); [reflexivity|].
  cbv zeta. now destruct (is_empty (_ ++ _)) eqn:E.
Qed.

Lemma abspath_nonempty p : is_empty (os.path.abspath h p) = false.
Proof.
  unfold os.path.abspath, posixpath.abspath.
  destruct (posixpath.isabs p); apply normpath_nonempty.
Qed.





Lemma stat_of_node p n0 comps n :
  os.descend n0 comps = Some n ->
  os.stat_node p n0 comps = Ok (os.st_mtime_ns n).
Proof.
  revert n0. induction comps as [|c r IH]; intros n0; simpl.
  - now intros [= <-].
  - destruct n0 as [t|t es]; [discriminate|].
    destruct (os.find_entry c es); [apply IH | discriminate].
Qed.


End RawRaises.

(** ** Cache keys of a [RawFileSystem] *)

(** X15: the cache key of a File that a [RawFileSystem] returned for a
    name without backslashes is the modification time of the regular
    file the lookup found. *)
Theorem X15_raw_cache_key_is_mtime h root c name f :
  PyStr.fix_slashes name = name ->
  _get_file h (Raw root c) name = Ok f ->
  exists t,
    os.node_at h (os.path.abspath h (os.path.join root name))
    = Some (RegFile t)
    /\ cache_key h f = Ok t.
Proof.
  intros Hfix. simpl. unfold RawFileSystem._get_file.
  destruct (RawFileSystem._resolve_path h root c name) as [a|e] eqn:E;
    simpl; [|easy].
  unfold os.path.isfile.
  destruct (os.node_at h a) as [[t|t es]|] eqn:En; try easy.
  rewrite Hfix. intros [= <-]. exists t.
  assert (Ha : a = os.path.abspath h (os.path.join root name)).
  { unfold RawFileSystem._resolve_path in E.
    destruct (c && negb _); [discriminate | now injection E]. }
  split; [now rewrite <- Ha|].
  unfold cache_key. simpl. unfold RawFileSystem._get_cache_key. simpl.
  rewrite E. simpl. unfold os.stat_mtime_ns.
  now rewrite (stat_of_node _ _ _ _ En).
Qed.

(** The host's [/data/a.txt] was last modified at 5. *)
Lemma X15_witness :
  _get_file example_host example_raw "a.txt"
  = Ok (MkFile example_raw "a.txt" (DataStr "a.txt"))
  /\ cache_key example_host (MkFile example_raw "a.txt" (DataStr "a.txt"))
     = Ok 5%Z.
Proof.
  assert (H : _get_file example_host (Raw "/data" true) "a.txt"
              = Ok (MkFile example_raw "a.txt" (DataStr "a.txt")))
    by reflexivity.
  split; [exact H|].
  destruct (X15_raw_cache_key_is_mtime example_host "/data" true "a.txt" _
              eq_refl H) as (t & Hn & Hk).
  injection Hn as <-. exact Hk.
Defined.

(** ** Equality and hashing of the path-keyed classes *)

Lemma abspath_normal h p :
  os.path.normpath (os.path.abspath h p) = os.path.abspath h p.
Proof.
  unfold os.path.normpath, os.path.abspath, posixpath.abspath.
  destruct (posixpath.isabs p); apply normpath_idem.
Qed.

(** X17: two [RawFileSystem]s built on one host are equal exactly when
    the paths given to them have the same absolute form, whatever their
    constraint flags; the root a [RawFileSystem] keeps is that absolute
    form, never empty and unchanged by normalisation. *)
Theorem X17_raw_systems_equal_by_absolute_root h p q c c' :
  (__eq__ (RawFileSystem.__init__ h p c) (RawFileSystem.__init__ h q c')
   = true
   <-> os.path.abspath h p = os.path.abspath h q)
  /\ fs_path (RawFileSystem.__init__ h p c) = os.path.abspath h p
  /\ os.path.normpath (fs_path (RawFileSystem.__init__ h p c))
     = fs_path (RawFileSystem.__init__ h p c)
  /\ fs_path (RawFileSystem.__init__ h p c) <> "".
Proof.
  simpl. rewrite !abspath_normal, String.eqb_eq.
  repeat split; auto.
  intros H. pose proof (abspath_nonempty h p) as Hne. now rewrite H in Hne.
Qed.

(** X18: for two systems of the classes that inherit [__eq__] and
    [__hash__], the texts they hash are equal exactly when the systems
    are equal: equal systems hash alike, and systems of different
    classes or paths hash different texts. *)
Theorem X18_hashed_text_matches_equality a b ta tb :
  hashed_text a = Some ta ->
  hashed_text b = Some tb ->
  (__eq__ a b = true <-> ta = tb).
Proof.
  destruct a, b; simpl; try discriminate; intros [= <-] [= <-];
    rewrite ?String.eqb_eq; split; try discriminate;
    try (intros ->; reflexivity); try (intros [= ->]; reflexivity).
Qed.

(** Two spellings of one archive path hash the same text. *)
Lemma X18_witness :
  hashed_text (Zip "pak/a.zip" []) = Some "ZipFileSystempak/a.zip"
  /\ hashed_text (Zip "./pak//a.zip" []) = Some "ZipFileSystempak/a.zip"
  /\ __eq__ (Zip "pak/a.zip" []) (Zip "./pak//a.zip" []) = true.
Proof.
  split; [reflexivity|]. split; [reflexivity|].
  exact (proj2 (X18_hashed_text_matches_equality
                  (Zip "pak/a.zip" []) (Zip "./pak//a.zip" []) _ _
                  eq_refl eq_refl) eq_refl).
Defined.

(* ================================================================== *)
(** * The transformation context *)

Section ContextFacts.
Import bsp_transform.
Variable Entity : Type.
Variable ent_eqb : Entity -> Entity -> bool.
Variable OutputRest : Type.
Hypothesis ent_eqb_eq : forall a b, ent_eqb a b = true <-> a = b.

Lemma kget_kset_same (d : list (Entity * string)) k v :
  kget ent_eqb (kset ent_eqb d k v) k = Some v.
Proof.
  assert (Hr : ent_eqb k k = true) by now apply ent_eqb_eq.
  induction d as [|[k' v'] d IH]; simpl; [now rewrite Hr|].
  destruct (ent_eqb k' k) eqn:E; simpl; rewrite E; [reflexivity | exact IH].
Qed.

Lemma kget_kset_other (d : list (Entity * string)) k k' v :
  k' <> k -> kget ent_eqb (kset ent_eqb d k v) k' = kget ent_eqb d k'.
Proof.
  intros Hne.
  assert (Hf : ent_eqb k k' = false).
  { destruct (ent_eqb k k') eqn:E; [|reflexivity].
    apply ent_eqb_eq in E. congruence. }
  induction d as [|[k0 v0] d IH]; simpl; [now rewrite Hf|].
  destruct (ent_eqb k0 k) eqn:E; simpl.
  - apply ent_eqb_eq in E. subst k0. now rewrite Hf.
  - destruct (ent_eqb k0 k'); [reflexivity | exact IH].
Qed.

Lemma sapp_assoc (a b c : string) : (a ++ b) ++ c = a ++ (b ++ c).
Proof. induction a as [|x a IH]; simpl; [reflexivity | now rewrite IH]. Qed.

Lemma join_lines_merge a b l :
  PyStr.join (String io.LF "") ((a ++ String io.LF b) :: l)
  = PyStr.join (String io.LF "") (a :: b :: l).
Proof.
  unfold PyStr.join. simpl. destruct l as [|c l].
  - reflexivity.
  - now rewrite sapp_assoc.
Qed.

(** X19: the codes registered for an entity with [add_code] are kept
    as one text, in the order of registration and joined by newlines,
    after the text the entity had before; the code of every other entity
    and the remap table stay as they were. *)
Theorem X19_add_code_joins_in_order
        (ctx : Context Entity OutputRest) ent codes :
  let ctx' := fold_left (fun c code => add_code ent_eqb c ent code)
                        codes ctx in
  kget ent_eqb (_ent_code ctx') ent
  = match kget ent_eqb (_ent_code ctx) ent, codes with
    | None, [] => None
    | None, first :: more =>
        Some (PyStr.join (String io.LF "") (first :: more))
    | Some existing, _ =>
        Some (PyStr.join (String io.LF "") (existing :: codes))
    end
  /\ (forall other, other <> ent ->
        kget ent_eqb (_ent_code ctx') other
        = kget ent_eqb (_ent_code ctx) other)
  /\ _io_remaps ctx' = _io_remaps ctx.
Proof.
  assert (Gsome : forall codes (ctx : Context Entity OutputRest) existing,
             kget ent_eqb (_ent_code ctx) ent = Some existing ->
             kget ent_eqb
                  (_ent_code (fold_left
                                (fun c code => add_code ent_eqb c ent code)
                                codes ctx)) ent
             = Some (PyStr.join (String io.LF "") (existing :: codes))).
  { clear ctx codes. induction codes as [|code codes IH]; intros ctx ex Hex.
    - simpl. now rewrite Hex.
    - simpl fold_left. rewrite (IH _ (ex ++ String io.LF code)).
      + now rewrite join_lines_merge.
      + unfold add_code. simpl. rewrite Hex. apply kget_kset_same. }
  intros ctx'. subst ctx'. split; [|split].
  - destruct (kget ent_eqb (_ent_code ctx) ent) as [ex|] eqn:Hex.
    + now apply Gsome.
    + destruct codes as [|first more]; [simpl; exact Hex|].
      simpl fold_left. apply Gsome. unfold add_code. simpl. rewrite Hex.
      apply kget_kset_same.
  - intros other Hne. revert ctx.
    induction codes as [|code codes IH]; intros ctx; [reflexivity|].
    simpl fold_left. rewrite IH. unfold add_code. simpl.
    destruct (kget ent_eqb (_ent_code ctx) ent);
      now apply kget_kset_other.
  - revert ctx. induction codes as [|code codes IH]; intros ctx;
      [reflexivity|].
    simpl fold_left. now rewrite IH.
Qed.
End ContextFacts.

(** Two codes registered for entity 7 of a fresh context. *)
Lemma X19_witness :
  (forall a b, Nat.eqb a b = true <-> a = b)
  /\ bsp_transform.kget
       Nat.eqb
       (bsp_transform._ent_code
          (bsp_transform.add_code
             Nat.eqb
             (bsp_transform.add_code
                Nat.eqb (@bsp_transform.new_context nat nat) 7 "a <- 1")
             7 "b <- 2"))
       7
     = Some ("a <- 1" ++ String io.LF "b <- 2").
Proof.
  split; [exact Nat.eqb_eq|].
  exact (proj1 (X19_add_code_joins_in_order
                  nat Nat.eqb nat Nat.eqb_eq bsp_transform.new_context 7
                  ["a <- 1"; "b <- 2"])).
Defined.

Section RemapFacts.
Import bsp_transform.
Variable Entity : Type.
Variable ent_eqb : Entity -> Entity -> bool.
Variable OutputRest : Type.

Lemma kset_known_keys {V} (d : list ((string * string) * V)) k v v' :
  kget key_eqb d k = Some v' ->
  map fst (kset key_eqb d k v) = map fst d.
Proof.
  induction d as [|[k0 v0] d IH]; simpl; [discriminate|].
  destruct (key_eqb k0 k); simpl; [reflexivity|].
  intros H. now rewrite IH.
Qed.

Lemma add_io_remap_loop_keys (outputs : list (Output OutputRest)) :
  forall remaps name,
    map fst (fst (fst (add_io_remap_loop remaps name outputs)))
    = map fst remaps
    /\ length (snd (fst (add_io_remap_loop remaps name outputs)))
       = length outputs.
Proof.
  induction outputs as [|out others IH]; intros remaps name; simpl;
    [auto|].
  destruct (kget key_eqb remaps _) as [registered|] eqn:E; simpl; [|auto].
  specialize (IH (kset key_eqb remaps
                       (name, PyStr.casefold (output out))
                       (registered ++ [set_output out ""])%list) name).
  destruct (add_io_remap_loop _ name others) as [[remaps' others'] e].
  simpl in *. destruct IH as [-> ->].
  split; [eapply kset_known_keys, E | reflexivity].
Qed.

Lemma after_call_no_remaps (ctx : Context Entity OutputRest) call :
  _io_remaps ctx = [] -> _io_remaps (after_call ent_eqb ctx call) = [].
Proof.
  intros H. destruct call as [ent code | name outputs]; simpl; [exact H|].
  unfold add_io_remap.
  pose proof (add_io_remap_loop_keys outputs (_io_remaps ctx)
                                     (PyStr.casefold name)) as [Hk _].
  destruct (add_io_remap_loop _ _ outputs) as [[remaps' outputs'] e].
  simpl in *. rewrite H in Hk. now destruct remaps'.
Qed.

(** X20: [add_io_remap] never adds a key to the remap table: it keeps
    the table's keys, the entity codes and the number of outputs.  So
    the table of a context that started empty stays empty under any calls
    of [add_code] and [add_io_remap], and every call of [add_io_remap]
    with an output on such a context ends in [KeyError] for the first
    output's key, having blanked that output's name and nothing else. *)
Theorem X20_add_io_remap_adds_no_key :
  (forall (ctx : Context Entity OutputRest) name outputs,
      map fst (_io_remaps (fst (fst (add_io_remap ctx name outputs))))
      = map fst (_io_remaps ctx)
      /\ _ent_code (fst (fst (add_io_remap ctx name outputs)))
         = _ent_code ctx
      /\ length (snd (fst (add_io_remap ctx name outputs)))
         = length outputs)
  /\ (forall calls,
         _io_remaps (fold_left (after_call ent_eqb) calls
                               (@new_context Entity OutputRest)) = [])
  /\ (forall calls name out others,
         let ctx := fold_left (after_call ent_eqb) calls
                              (@new_context Entity OutputRest) in
         add_io_remap ctx name (out :: others)
         = (ctx, set_output out "" :: others,
            KeyError (PyStr.casefold name, PyStr.casefold (output out)))).
Proof.
  assert (Hempty : forall calls (ctx : Context Entity OutputRest),
             _io_remaps ctx = [] ->
             _io_remaps (fold_left (after_call ent_eqb) calls ctx) = []).
  { induction calls as [|call calls IH]; intros ctx H; simpl; [exact H|].
    apply IH. now apply after_call_no_remaps. }
  split; [|split].
  - intros ctx name outputs. unfold add_io_remap.
    pose proof (add_io_remap_loop_keys outputs (_io_remaps ctx)
                                       (PyStr.casefold name)) as [Hk Hl].
    destruct (add_io_remap_loop _ _ outputs) as [[remaps' outputs'] e].
    simpl in *. auto.
  - intros calls. now apply Hempty.
  - intros calls name out others ctx.
    assert (H : _io_remaps ctx = []) by (now apply Hempty).
    unfold add_io_remap. simpl. rewrite H. simpl.
    destruct ctx as [remaps codes]. simpl in *. now subst remaps.
Qed.
End RemapFacts.

(* ================================================================== *)
(** * Virtual systems as values *)

Section VirtualValues.
Import PyStr.

Lemma entry_eqb_refl x : entry_eqb x x = true.
Proof.
  destruct x as [fn [s|b]]; unfold entry_eqb; simpl;
    now rewrite !String.eqb_refl.
Qed.

(** Dictionaries with the same entries in any order are equal. *)
Lemma dict_eqb_permutation (d1 d2 : PyDict.dict (string * Content)) :
  NoDup (map fst d1) -> Permutation d1 d2 ->
  PyDict.eqb entry_eqb d1 d2 = true.
Proof.
  intros Hnd Hp. unfold PyDict.eqb. apply andb_true_iff. split.
  - apply Nat.eqb_eq. now apply Permutation_length.
  - apply forallb_forall. intros [k v] Hin. simpl.
    assert (Hnd2 : NoDup (map fst d2))
      by (eapply Permutation_NoDup; [apply Permutation_map, Hp | exact Hnd]).
    rewrite (In_get d2 k v Hnd2) by (eapply Permutation_in; eassumption).
    apply entry_eqb_refl.
Qed.

(** The index of a virtual system built from items with distinct cleaned
    names holds one entry per item, in the order given. *)
Lemma virtual_index_distinct mapping :
  NoDup (map (fun fd => VirtualFileSystem._clean_path (Name (fst fd)))
             mapping) ->
  forall encoding,
    VirtualFileSystem.__init__ mapping encoding
    = Virtual "<virtual>"
              (map (fun fd : string * Content =>
                      (VirtualFileSystem._clean_path (Name (fst fd)),
                       (fst fd, snd fd))) mapping)
              encoding.
Proof.
  intros Hnd encoding. unfold VirtualFileSystem.__init__.
  assert (Hkeys : NoDup (map fst mapping)).
  { rewrite <- (map_map fst (fun k => VirtualFileSystem._clean_path (Name k)))
      in Hnd.
    eapply NoDup_map_inv, Hnd. }
  rewrite (of_items_distinct mapping Hkeys).
  rewrite of_items_distinct; [reflexivity|].
  now rewrite map_map.
Qed.

(** X21: two virtual systems with the same encoding, built from the
    same items given in different orders, are equal, provided no two
    items have the same cleaned name; a system built so equals itself. *)
Theorem X21_virtual_equality_ignores_item_order mapping mapping' encoding :
  NoDup (map (fun fd => VirtualFileSystem._clean_path (Name (fst fd)))
             mapping) ->
  Permutation mapping mapping' ->
  __eq__ (VirtualFileSystem.__init__ mapping encoding)
         (VirtualFileSystem.__init__ mapping' encoding) = true.
Proof.
  intros Hnd Hp.
  assert (Hnd' : NoDup (map (fun fd : string * Content =>
                               VirtualFileSystem._clean_path (Name (fst fd)))
                            mapping'))
    by (eapply Permutation_NoDup; [apply Permutation_map, Hp | exact Hnd]).
  rewrite (virtual_index_distinct _ Hnd), (virtual_index_distinct _ Hnd').
  simpl. rewrite String.eqb_refl. simpl.
  apply dict_eqb_permutation.
  - now rewrite map_map.
  - now apply Permutation_map.
Qed.
End VirtualValues.

(** Two files given in either order. *)
Lemma X21_witness :
  __eq__ (VirtualFileSystem.__init__
            [("a.txt", Text "1"); ("b.bin", Bytes "2")] "utf8")
         (VirtualFileSystem.__init__
            [("b.bin", Bytes "2"); ("a.txt", Text "1")] "utf8") = true.
Proof.
  apply X21_virtual_equality_ignores_item_order.
  - repeat constructor; simpl; intuition discriminate.
  - apply perm_swap.
Defined.

(** ** Opening the Files of a virtual system *)

(** X22: a File obtained from a [VirtualFileSystem], by lookup or by
    traversal, can be opened: [open_bin] and [open_str] given the File
    find an item of the mapping under the File's path and never raise
    [FileNotFoundError], and they answer as when given that path. *)
Theorem X22_virtual_file_opens h mapping encoding f :
  let fs := VirtualFileSystem.__init__ mapping encoding in
  obtained h fs f ->
  exists d,
    In (path f, d) mapping
    /\ open_bin h fs (AFile f) = open_bin h fs (Name (path f))
    /\ open_bin h fs (AFile f)
       = Some (match d with
               | Bytes b => Ok b
               | Text s => match str_encode h encoding s with
                           | Some b => Ok b
                           | None => Raise UnicodeError
                           end
               end)
    /\ forall enc,
         open_str h fs (AFile f) enc
         = Some (match d with
                 | Text s => Ok (io.universal_newlines s)
                 | Bytes b => match bytes_decode h enc b with
                              | Some s => Ok (io.universal_newlines s)
                              | None => Raise UnicodeError
                              end
                 end).
Proof.
  intros fs Hob. subst fs. unfold VirtualFileSystem.__init__ in *.
  set (idx := PyDict.of_items _) in *.
  assert (G : exists key fn d, In (key, (fn, d)) idx /\ path f = fn).
  { destruct Hob as [(name & H) | (folder & H)]; simpl in H.
    - unfold VirtualFileSystem._get_file in H.
      destruct (PyDict.get idx _) as [[fn d]|] eqn:E; [|discriminate].
      injection H as <-. apply get_In in E. eauto.
    - unfold VirtualFileSystem.walk_folder, yielded in H. simpl in H.
      apply in_map_iff in H. destruct H as ([fn d] & <- & H).
      apply filter_In in H. destruct H as [H _].
      unfold PyDict.values in H. apply in_map_iff in H.
      destruct H as ([key [fn' d']] & [= -> ->] & Hin). eauto. }
  destruct G as (key & fn & d & Hin & Hfn).
  destruct (virtual_index_entry _ _ _ _ Hin) as [-> Hm].
  assert (Hget : PyDict.get idx (VirtualFileSystem._clean_path (Name fn))
                 = Some (fn, d))
    by (apply In_get; [apply of_items_NoDup | exact Hin]).
  exists d. rewrite Hfn. split; [exact Hm|].
  simpl. unfold VirtualFileSystem.open_bin, VirtualFileSystem.open_str.
  change (VirtualFileSystem._clean_path (AFile f))
    with (VirtualFileSystem._clean_path (Name (path f))).
  rewrite Hfn, Hget. repeat split; destruct d; reflexivity.
Qed.

(** The File listed for [maps/de_dust.bsp] opens to the bytes given. *)
Lemma X22_witness :
  obtained example_host example_maps
           (MkFile example_maps "maps/de_dust.bsp"
                   (DataStr "maps/de_dust.bsp"))
  /\ open_bin example_host example_maps
              (AFile (MkFile example_maps "maps/de_dust.bsp"
                             (DataStr "maps/de_dust.bsp")))
     = Some (Ok "VBSP").
Proof.
  assert (H : obtained example_host example_maps
                (MkFile example_maps "maps/de_dust.bsp"
                        (DataStr "maps/de_dust.bsp")))
    by (right; exists "maps"; now left).
  split; [exact H|].
  destruct (X22_virtual_file_opens
              example_host [("maps/de_dust.bsp", Bytes "VBSP")] "utf8" _ H)
    as (d & Hin & _ & Hb & _).
  destruct Hin as [Hin | []]. injection Hin as <-. exact Hb.
Defined.

(** ** Listing an archive from its root *)

Lemma startswith_nil s : PyStr.startswith s "" = true.
Proof. reflexivity. Qed.

Lemma filter_all {A} (p : A -> bool) l :
  (forall x, p x = true) -> filter p l = l.
Proof.
  intros H. induction l as [|a l IH]; simpl; [reflexivity|].
  now rewrite H, IH.
Qed.

(** X23: the traversal of a [ZipFileSystem] or a [VPKFileSystem] from
    its root yields one File for every entry of its index, in the order
    of the index, and never raises; so every name that exists in the
    archive system is the folded name of a listed File. *)
Theorem X23_archive_root_listing_is_complete h zp zidx vp vidx :
  walk_folder h (Zip zp zidx) ""
  = (map (fun kv => MkFile (Zip zp zidx) (zipfile.filename (snd kv))
                           (DataZip (snd kv))) zidx, None)
  /\ walk_folder h (VPK vp vidx) ""
     = (map (fun kv => MkFile (VPK vp vidx) (vpk.filename (snd kv))
                              (DataVPK (snd kv))) vidx, None)
  /\ (forall name f,
         _get_file h (Zip zp zidx) name = Ok f ->
         exists g, In g (yielded (walk_folder h (Zip zp zidx) ""))
                   /\ _data g = _data f)
  /\ (forall name f,
         _get_file h (VPK vp vidx) name = Ok f ->
         exists g, In g (yielded (walk_folder h (VPK vp vidx) ""))
                   /\ _data g = _data f).
Proof.
  assert (Hz : walk_folder h (Zip zp zidx) ""
               = (map (fun kv => MkFile (Zip zp zidx)
                                        (zipfile.filename (snd kv))
                                        (DataZip (snd kv))) zidx, None)).
  { simpl. unfold ZipFileSystem.walk_folder. simpl.
    now rewrite filter_all. }
  assert (Hv : walk_folder h (VPK vp vidx) ""
               = (map (fun kv => MkFile (VPK vp vidx)
                                        (vpk.filename (snd kv))
                                        (DataVPK (snd kv))) vidx, None)).
  { simpl. unfold VPKFileSystem.walk_folder, PyDict.values. simpl.
    rewrite filter_all by reflexivity. now rewrite map_map. }
  split; [exact Hz|]. split; [exact Hv|]. split.
  - intros name f H. rewrite Hz. simpl in H.
    unfold ZipFileSystem._get_file in H.
    destruct (PyDict.get zidx _) as [info|] eqn:E; [|discriminate].
    injection H as <-. apply get_In in E.
    eexists. split; [apply in_map_iff; eexists; split; [reflexivity|exact E]|].
    reflexivity.
  - intros name f H. rewrite Hv. simpl in H.
    unfold VPKFileSystem._get_file in H.
    destruct (PyDict.get vidx _) as [file|] eqn:E; [|discriminate].
    injection H as <-. apply get_In in E.
    eexists. split; [apply in_map_iff; eexists; split; [reflexivity|exact E]|].
    reflexivity.
Qed.

(* ================================================================== *)
(** * Paths relative to a prefix *)

Section Relpath.
Import PyStr posixpath.

Lemma split_nonnil s : split slash s <> [].
Proof.
  destruct s as [|c s]; simpl; [discriminate|].
  destruct (Ascii.eqb c slash); [discriminate|].
  destruct (split slash s); discriminate.
Qed.

Lemma split_app_slash a b :
  split slash (a ++ String slash b)
  = (split slash a ++ split slash b)%list.
Proof.
  induction a as [|c a IH]; simpl; [reflexivity|].
  rewrite IH. destruct (Ascii.eqb c slash); [reflexivity|].
  pose proof (split_nonnil a) as Hne.
  destruct (split slash a); [congruence | reflexivity].
Qed.

Lemma sapp_nil_r (s : string) : s ++ "" = s.
Proof. induction s as [|c s IH]; simpl; [reflexivity | now rewrite IH]. Qed.

Lemma plain_normal k l : Forall plain l -> normal_comps k l.
Proof. intros H. exists 0, l. auto. Qed.

Lemma plain_nosep l : Forall plain l -> Forall nosep l.
Proof. intros H. eapply Forall_impl; [|exact H]. now intros a (Ha & _). Qed.

Lemma last_char_app a b :
  is_empty b = false -> last_char (a ++ b) = last_char b.
Proof.
  intros Hb. induction a as [|c a IH]; [reflexivity|].
  simpl. rewrite IH.
  destruct (a ++ b) eqn:E; [|reflexivity].
  destruct a; destruct b; discriminate.
Qed.

Lemma plain_no_trailing_slash c :
  plain c -> is_empty c = false /\ endswith_char c slash = false
             /\ startswith c sep = false.
Proof.
  intros (Hn & Hne & _). destruct c as [|x c]; [congruence|].
  split; [reflexivity|]. split.
  - unfold endswith_char.
    assert (G : forall s, nosep s ->
                          match last_char s with
                          | Some d => Ascii.eqb d slash
                          | None => false
                          end = false).
    { induction s as [|y s IHs]; [reflexivity|]. intros [Hy Hs].
      destruct s as [|z s]; [now apply Ascii.eqb_neq | now apply IHs]. }
    now apply G.
  - destruct Hn as [Hx _]. apply Ascii.eqb_neq in Hx. simpl.
    unfold slash in Hx. now rewrite Hx.
Qed.

(** Joining plain names one after the other writes them with one
    separator between them. *)
Lemma join_all_plain r rs :
  Forall plain (r :: rs) -> join_all r rs = PyStr.join sep (r :: rs).
Proof.
  unfold join_all, PyStr.join.
  assert (G : forall rs a,
             is_empty a = false -> endswith_char a slash = false ->
             Forall plain rs ->
             fold_left posixpath.join rs a
             = a ++ match rs with
                    | [] => ""
                    | _ => sep ++ String.concat sep rs
                    end).
  { clear. induction rs as [|c rs IH]; intros a Ha He Hrs; simpl.
    - apply eq_sym, sapp_nil_r.
    - inversion Hrs as [|? ? Hc Hrs']; subst.
      destruct (plain_no_trailing_slash c Hc) as (Hce & Hcs & Hcb).
      unfold posixpath.join at 2. rewrite Hcb, Ha, He. simpl orb. cbv iota.
      rewrite IH; try assumption.
      + rewrite !sapp_assoc. destruct rs; [|reflexivity].
        now rewrite sapp_nil_r.
      + destruct a; [discriminate | reflexivity].
      + unfold endswith_char.
        rewrite last_char_app
          by (unfold sep; simpl; reflexivity).
        unfold sep. simpl String.append.
        change (String "/" c) with ("/" ++ c).
        rewrite last_char_app by assumption. exact Hcs. }
  intros H. inversion H as [|? ? Hr Hrs]; subst.
  destruct (plain_no_trailing_slash r Hr) as (Hre & Hrs' & _).
  rewrite G by assumption. destruct rs; [|reflexivity].
  apply sapp_nil_r.
Qed.

Lemma normal_comps_filled k l :
  normal_comps k l -> Forall (fun c => is_empty c = false) l.
Proof.
  intros (n & rest & -> & Hrest & _). apply Forall_app. split.
  - apply Forall_forall. intros x Hx. apply repeat_spec in Hx. now subst x.
  - eapply Forall_impl; [|exact Hrest]. intros a (_ & Ha & _).
    now destruct a.
Qed.

Lemma filter_filled l :
  Forall (fun c => is_empty c = false) l ->
  filter (fun x => negb (is_empty x)) l = l.
Proof.
  induction 1 as [|c l Hc _ IH]; simpl; [reflexivity|].
  now rewrite Hc, IH.
Qed.

Lemma filter_blank n l :
  filter (fun x => negb (is_empty x)) (repeat "" n ++ l)
  = filter (fun x => negb (is_empty x)) l.
Proof. induction n; simpl; [reflexivity | exact IHn]. Qed.

(** The names of a normalised absolute path are the components its
    normalisation keeps. *)
Lemma comps_of_normpath X :
  startswith X sep = true ->
  nonempty_comps (normpath X)
  = fold_left (norm_step (initial_slashes X)) (split slash X) [].
Proof.
  intros HX.
  assert (Hk : initial_slashes X = 1 \/ initial_slashes X = 2).
  { unfold initial_slashes. rewrite HX.
    destruct (startswith X "//" && negb (startswith X "///")); auto. }
  pose proof (fold_norm_step_normal (initial_slashes X) _ []
                (split_nosep X) (normal_comps_nil _)) as Hnc.
  set (nc := fold_left _ _ _) in *.
  assert (Hn : normpath X
               = repeat_char slash (initial_slashes X) ++ PyStr.join sep nc).
  { unfold normpath. destruct X as [|c X]; [discriminate|].
    change (is_empty (String c X)) with false. cbv iota zeta. fold nc.
    destruct Hk as [-> | ->]; reflexivity. }
  unfold nonempty_comps. rewrite Hn, split_lead, filter_blank.
  destruct nc as [|x l] eqn:E; [reflexivity|].
  rewrite split_join;
    [| eapply normal_comps_nosep; exact Hnc | discriminate].
  apply filter_filled. eapply normal_comps_filled. exact Hnc.
Qed.

Lemma plain_join_head R :
  Forall plain R -> R <> [] ->
  exists x t, PyStr.join sep R = String x t /\ x <> slash.
Proof.
  intros HR Hne. destruct R as [|r rs]; [congruence|].
  exact (normal_comps_head 0 r rs (plain_normal 0 _ HR)).
Qed.

Lemma ends_with_slash X :
  endswith_char X slash = true -> exists X0, X = X0 ++ "/".
Proof.
  unfold endswith_char. induction X as [|c X IH]; [discriminate|].
  destruct X as [|d X].
  - simpl. intros H. apply Ascii.eqb_eq in H. subst c. now exists "".
  - intros H. destruct (IH H) as (X0 & HX0).
    exists (String c X0). simpl. now rewrite <- HX0.
Qed.

(** Joining plain names to an absolute path adds them to its
    components. *)
Lemma comps_of_joined X R :
  startswith X sep = true -> Forall plain R -> R <> [] ->
  startswith (posixpath.join X (PyStr.join sep R)) sep = true
  /\ nonempty_comps (normpath (posixpath.join X (PyStr.join sep R)))
     = (nonempty_comps (normpath X) ++ R)%list.
Proof.
  intros HX HR Hne.
  destruct (plain_join_head R HR Hne) as (x & t & Hb & Hx).
  pose proof (split_join R (plain_nosep R HR) Hne) as Hsplit.
  set (b := PyStr.join sep R) in *.
  assert (Hbs : startswith b sep = false).
  { rewrite Hb. apply Ascii.eqb_neq in Hx. unfold slash in Hx. simpl.
    now rewrite Hx. }
  assert (HY : startswith (posixpath.join X b) sep = true).
  { unfold posixpath.join. rewrite Hbs.
    destruct X as [|c X]; [discriminate|]. simpl in HX.
    destruct (is_empty _ || _); simpl; exact HX. }
  split; [exact HY|].
  rewrite !comps_of_normpath by assumption.
  assert (Hk : initial_slashes (posixpath.join X b) = initial_slashes X).
  { unfold posixpath.join. rewrite Hbs, Hb.
    apply Ascii.eqb_neq in Hx. unfold slash in Hx.
    destruct X as [|c1 [|c2 [|c3 X3]]]; [discriminate| | |].
    - simpl in HX. rewrite andb_true_r in HX. apply Ascii.eqb_eq in HX.
      subst c1. unfold initial_slashes, sep. simpl. now rewrite Hx.
    - simpl in HX. rewrite andb_true_r in HX. apply Ascii.eqb_eq in HX.
      subst c1. unfold endswith_char, initial_slashes, sep, slash. simpl.
      destruct (Ascii.eqb c2 "/") eqn:E2; simpl; rewrite ?E2, ?Hx;
        reflexivity.
    - destruct (is_empty _ || _); reflexivity. }
  rewrite Hk. set (k := initial_slashes X).
  unfold posixpath.join. rewrite Hbs.
  assert (HXe : is_empty X = false) by (destruct X; [discriminate|reflexivity]).
  rewrite HXe. simpl orb.
  destruct (endswith_char X slash) eqn:He.
  - destruct (ends_with_slash X He) as (X0 & ->).
    rewrite sapp_assoc. simpl String.append.
    change (String "/" b) with (String slash b).
    change "/" with (String slash "").
    rewrite !split_app_slash, Hsplit. simpl split.
    rewrite !fold_left_app. simpl fold_left at 2.
    change (norm_step k (fold_left (norm_step k) (split slash X0) []) "")
      with (fold_left (norm_step k) (split slash X0) []).
    now apply fold_plain.
  - unfold sep. simpl String.append.
    change (String "/" b) with (String slash b).
    rewrite split_app_slash, Hsplit, fold_left_app.
    now apply fold_plain.
Qed.

Lemma startswith_app_head a t :
  is_empty a = false -> startswith (a ++ t) sep = startswith a sep.
Proof. destruct a as [|c a]; [discriminate | reflexivity]. Qed.

Lemma endswith_app a b :
  is_empty b = false ->
  endswith_char (a ++ b) slash = endswith_char b slash.
Proof. intros H. unfold endswith_char. now rewrite last_char_app. Qed.

(** [join(a, join(p, b))] is [join(join(a, p), b)] for relative [p]
    and relative, non-empty [b]. *)
Lemma join_relative_assoc a p b :
  startswith p sep = false -> startswith b sep = false ->
  is_empty b = false ->
  posixpath.join a (posixpath.join p b)
  = posixpath.join (posixpath.join a p) b.
Proof.
  intros Hp Hb Hbe. unfold posixpath.join. rewrite Hb, Hp.
  destruct p as [|c p].
  - simpl orb. cbv iota. simpl String.append at 1. rewrite Hb.
    destruct (is_empty a || endswith_char a slash) eqn:Ea.
    + rewrite sapp_nil_r, Ea. reflexivity.
    + unfold sep. rewrite endswith_app by reflexivity.
      replace (endswith_char "/" slash) with true by reflexivity.
      rewrite orb_true_r. now rewrite sapp_assoc.
  - set (q := String c p) in *.
    assert (Hq : is_empty q = false) by reflexivity.
    change (is_empty q) with false. simpl orb at 1.
    assert (Hs : forall t, startswith (q ++ t) sep = false)
      by (intros t; now rewrite startswith_app_head).
    destruct (endswith_char q slash) eqn:Eq; rewrite Hs;
      destruct (is_empty a || endswith_char a slash) eqn:Ea.
    + rewrite endswith_app, Eq by assumption. rewrite !orb_true_r.
      simpl orb. cbv iota. now rewrite sapp_assoc.
    + unfold sep. rewrite !endswith_app by reflexivity.
      rewrite Eq, !orb_true_r. simpl orb. cbv iota.
      now rewrite !sapp_assoc.
    + rewrite endswith_app, Eq by assumption. rewrite !orb_false_r.
      replace (is_empty (a ++ q)) with false
        by (destruct a; reflexivity).
      simpl orb. cbv iota. now rewrite !sapp_assoc.
    + unfold sep. rewrite !endswith_app by reflexivity.
      rewrite Eq, !orb_false_r.
      replace (is_empty (a ++ "/" ++ q)) with false
        by (destruct a; reflexivity).
      simpl orb. cbv iota. now rewrite !sapp_assoc.
Qed.

Lemma commonprefix_app S R : commonprefix S (S ++ R) = S.
Proof.
  induction S as [|x S IH]; simpl; [now destruct R|].
  now rewrite String.eqb_refl, IH.
Qed.

Lemma skipn_length_app (S R : list string) : skipn (length S) (S ++ R) = R.
Proof. induction S; simpl; [reflexivity | assumption]. Qed.

(** A path made of a prefix and plain names below it, taken relative to
    the prefix, is the plain names. *)
Lemma relpath_below_prefix cwd prefix R :
  startswith cwd sep = true -> Forall plain R -> R <> [] ->
  relpath cwd (posixpath.join prefix (PyStr.join sep R)) prefix
  = Some (PyStr.join sep R).
Proof.
  intros Hcwd HR Hne.
  destruct (plain_join_head R HR Hne) as (x & t & Hb & Hx).
  set (b := PyStr.join sep R) in *.
  assert (Hbe : is_empty b = false) by now rewrite Hb.
  assert (Hbs : startswith b sep = false).
  { rewrite Hb. apply Ascii.eqb_neq in Hx. unfold slash in Hx. simpl.
    now rewrite Hx. }
  assert (Hcwde : is_empty cwd = false)
    by (destruct cwd; [discriminate | reflexivity]).
  (* The absolute forms of the prefix and of the path. *)
  assert (G : exists X,
             startswith X sep = true
             /\ abspath cwd prefix = normpath X
             /\ abspath cwd (posixpath.join prefix b)
                = normpath (posixpath.join X b)).
  { destruct (startswith prefix sep) eqn:Hp.
    - exists prefix. split; [exact Hp|].
      assert (Hj : startswith (posixpath.join prefix b) sep = true).
      { unfold posixpath.join. rewrite Hbs.
        destruct prefix as [|c p]; [discriminate|].
        destruct (is_empty _ || _); exact Hp. }
      unfold abspath, isabs. now rewrite Hp, Hj.
    - exists (posixpath.join cwd prefix). split.
      + unfold posixpath.join. rewrite Hp.
        destruct (is_empty cwd || _);
          now rewrite startswith_app_head.
      + assert (Hj : startswith (posixpath.join prefix b) sep = false).
        { unfold posixpath.join. rewrite Hbs.
          destruct prefix as [|c p]; [exact Hbs|].
          destruct (is_empty _ || _); exact Hp. }
        unfold abspath, isabs. rewrite Hp, Hj.
        now rewrite join_relative_assoc. }
  destruct G as (X & HX & HaX & HaY).
  unfold relpath.
  assert (Hje : is_empty (posixpath.join prefix b) = false).
  { unfold posixpath.join. rewrite Hbs.
    destruct (is_empty prefix || _);
      [destruct prefix | destruct prefix]; simpl; now rewrite ?Hb. }
  rewrite Hje, HaX, HaY.
  destruct (comps_of_joined X R HX HR Hne) as [_ Hc]. fold b in Hc.
  rewrite Hc, commonprefix_app, Nat.sub_diag, skipn_length_app. simpl.
  destruct R as [|r rs]; [congruence|].
  now rewrite join_all_plain.
Qed.
End Relpath.

Lemma skip_done_covers files g :
  In g files ->
  exists f, In f (FileSystemChain.skip_done [] files)
            /\ PyStr.casefold (path f) = PyStr.casefold (path g).
Proof.
  intros Hg.
  assert (Hin : In g (filter (folded_is (path g)) files))
    by (apply filter_In; split; [exact Hg | apply String.eqb_refl]).
  pose proof (skip_done_filter (path g) files []) as Hfirst.
  simpl in Hfirst.
  destruct (filter (folded_is (path g)) files) as [|f0 l]; [easy|].
  simpl in Hfirst.
  assert (Hf0 : In f0 (filter (folded_is (path g))
                              (FileSystemChain.skip_done [] files)))
    by (rewrite Hfirst; now left).
  apply filter_In in Hf0. destruct Hf0 as [Hf0 Hx].
  exists f0. split; [exact Hf0 | now apply String.eqb_eq].
Qed.

(** X24: on a host whose working directory is absolute, a File of a
    chain member whose path is the member's prefix joined with plain
    names is presented by the chain's traversals under those names alone:
    it is what the member contributes, a repeating traversal that runs to
    its end yields it, and the non-repeating one yields a File with that
    path up to case. *)
Theorem X24_chain_traversal_strips_prefix
        h cp systems folder s prefix R inner :
  PyStr.startswith (getcwd h) posixpath.sep = true ->
  Forall plain R -> R <> [] ->
  In (s, prefix) systems ->
  In inner (yielded (walk_folder h s (full_name prefix folder))) ->
  path inner = posixpath.join prefix (PyStr.join posixpath.sep R) ->
  let chain := Chain cp systems in
  let shown := MkFile chain
                      (PyStr.fix_slashes (PyStr.join posixpath.sep R))
                      (DataFile inner) in
  In shown (member_files h chain folder (s, prefix))
  /\ (raised (FileSystemChain.walk_folder_repeat
                h (walk_folder h) chain systems folder) = None ->
      In shown (yielded (FileSystemChain.walk_folder_repeat
                           h (walk_folder h) chain systems folder))
      /\ exists f, In f (yielded (walk_folder h chain folder))
                   /\ PyStr.casefold (path f)
                      = PyStr.casefold (path shown)).
Proof.
  intros Hcwd HR Hne Hmem Hin Hpath chain shown.
  assert (Hm : In shown (member_files h chain folder (s, prefix))).
  { unfold member_files, reroot_files. apply in_flat_map.
    exists inner. split; [exact Hin|]. simpl snd.
    unfold os.path.relpath. rewrite Hpath.
    rewrite relpath_below_prefix by assumption. now left. }
  split; [exact Hm|]. intros Hend.
  assert (Hall : In shown (yielded (FileSystemChain.walk_folder_repeat
                                      h (walk_folder h) chain systems
                                      folder))).
  { rewrite walk_folder_repeat_completes by exact Hend.
    apply in_flat_map. now exists (s, prefix). }
  split; [exact Hall|].
  change (walk_folder h chain folder)
    with (FileSystemChain.walk_folder h (walk_folder h) chain systems folder).
  unfold FileSystemChain.walk_folder.
  set (w := FileSystemChain.walk_folder_repeat _ _ _ _ _) in *.
  unfold yielded in *. simpl.
  exact (skip_done_covers (fst w) shown Hall).
Qed.

(** The map under [maps/] is listed as [de_dust.bsp]. *)
Lemma X24_witness :
  In (MkFile (Chain "" [(example_maps, "maps/")]) "de_dust.bsp"
             (DataFile (MkFile example_maps "maps/de_dust.bsp"
                               (DataStr "maps/de_dust.bsp"))))
     (member_files example_host (Chain "" [(example_maps, "maps/")]) ""
                   (example_maps, "maps/")).
Proof.
  assert (Hplain : Forall plain ["de_dust.bsp"]).
  { constructor; [|constructor].
    unfold plain, nosep, PyStr.slash. simpl. repeat split; discriminate. }
  assert (Hne : ["de_dust.bsp"] <> []) by discriminate.
  exact (proj1 (X24_chain_traversal_strips_prefix
                  example_host "" [(example_maps, "maps/")] "" example_maps
                  "maps/" ["de_dust.bsp"]
                  (MkFile example_maps "maps/de_dust.bsp"
                          (DataStr "maps/de_dust.bsp"))
                  eq_refl Hplain Hne (or_introl eq_refl)
                  (or_introl eq_refl) eq_refl)).
Defined.

(** ** Looking a returned path up again *)

Lemma casefold_idem s : PyStr.casefold (PyStr.casefold s) = PyStr.casefold s.
Proof.
  unfold PyStr.casefold. rewrite smap_smap. apply smap_ext, lower_lower_char.
Qed.

(** X25: the indexed classes return, for the path of a File that a
    lookup returned, that File again: a [ZipFileSystem] and a
    [VPKFileSystem] in any state, a [VirtualFileSystem] as built from a
    mapping. *)
Theorem X25_indexed_lookup_is_stable h :
  (forall zp zidx name f,
      _get_file h (Zip zp zidx) name = Ok f ->
      _get_file h (Zip zp zidx) (path f) = Ok f)
  /\ (forall vp vidx name f,
         _get_file h (VPK vp vidx) name = Ok f ->
         _get_file h (VPK vp vidx) (path f) = Ok f)
  /\ (forall mapping encoding name f,
         _get_file h (VirtualFileSystem.__init__ mapping encoding) name
         = Ok f ->
         _get_file h (VirtualFileSystem.__init__ mapping encoding) (path f)
         = Ok f).
Proof.
  split; [|split].
  - intros zp zidx name f. simpl. unfold ZipFileSystem._get_file.
    destruct (PyDict.get zidx _) as [info|] eqn:E; [|discriminate].
    intros [= <-]. simpl. now rewrite fix_slashes_idem, E.
  - intros vp vidx name f. simpl. unfold VPKFileSystem._get_file.
    destruct (PyDict.get vidx _) as [file|] eqn:E; [|discriminate].
    intros [= <-]. simpl.
    rewrite casefold_fix_slashes, casefold_idem, fix_slashes_idem.
    now rewrite E.
  - intros mapping encoding name f. unfold VirtualFileSystem.__init__.
    set (idx := PyDict.of_items _). simpl.
    unfold VirtualFileSystem._get_file.
    destruct (PyDict.get idx _) as [[fn d]|] eqn:E; [|discriminate].
    intros [= <-]. simpl. apply get_In in E.
    destruct (virtual_index_entry _ _ _ _ E) as [Hk _].
    assert (Hget : PyDict.get idx (VirtualFileSystem._clean_path (Name fn))
                   = Some (fn, d)).
    { apply In_get; [apply of_items_NoDup|]. now rewrite <- Hk. }
    now rewrite Hget.
Qed.

(* ================================================================== *)
(** * Traversal of a chain of virtual systems *)

(** C6: in the chain of two virtual systems that both hold [x], each
    member and the chain find [x] by lookup, the chain in its first
    member; yet no traversal yields it: each member's traversal of the
    root yields nothing, and so do [walk_folder_repeat] and
    [walk_folder] of the chain. *)
Theorem C6_chain_of_virtual_systems_lists_nothing :
  _get_file example_host example_virtual_a "x"
  = Ok (MkFile example_virtual_a "x" (DataStr "x"))
  /\ _get_file example_host example_virtual_b "x"
     = Ok (MkFile example_virtual_b "x" (DataStr "x"))
  /\ _get_file example_host example_virtual_chain "x"
     = Ok (MkFile example_virtual_chain "x"
                  (DataFile (MkFile example_virtual_a "x" (DataStr "x"))))
  /\ walk_folder example_host example_virtual_a "" = ([], None)
  /\ walk_folder example_host example_virtual_b "" = ([], None)
  /\ walk_folder_repeat example_host example_virtual_chain ""
     = Some ([], None)
  /\ walk_folder example_host example_virtual_chain "" = ([], None).
Proof. repeat split; vm_compute; reflexivity. Qed.

(* ================================================================== *)
(** * Path segments in a virtual system *)



